(** * AIO Weather Repeater: a shallow embedding of [code.py]

    The program is a CircuitPython script: start-up code that brings up
    WiFi and the Adafruit IO (AIO) MQTT helper, followed by an endless
    [while True] loop that services the broker, watches the global
    [weather_data] for a change and republishes eight derived values.

    The embedding has three layers:
    - the Python values the script manipulates ([pyval], decoded JSON) with
      the handful of operators the script applies to them;
    - a small state/exception/trace monad [M] in which the script's
      functions ([message], [publish_to_aio], [busy], the loop body) are
      written statement by statement;
    - the environment (broker, radio, clock) as an oracle [world] that is
      consulted once per external call.

    Numbers: an int is a [Z].  A float is taken to be an IEEE 754 binary64
    number, as in CPython; a
    finite one is held as the rational it denotes ([VFloat]), an infinite
    one by its sign ([VInf]), and every float operation of the script
    rounds its exact result to the nearest binary64 number, ties to even
    ([round53], [fl]).  The sign of a zero is not kept.  NaN is not a
    value of the model: JSON has no literal for it, and the one operation
    of the script that can produce one, the remainder of an infinite
    heading, is followed by [int()], which raises. *)

From Stdlib Require Import ZArith QArith Qround String List Lia.
From stdpp Require Import base option list strings gmap pretty.

Local Open Scope string_scope.
Local Open Scope list_scope.
Local Open Scope Z_scope.
Local Set Warnings "-register-all".

(** ** Python values *)

Inductive pyval : Type :=
| VNone
| VBool (b : bool)
| VInt (n : Z)
| VFloat (x : Q)
| VInf (negative : bool)
| VStr (s : string)
| VList (l : list pyval)
| VDict (d : list (string * pyval)).

(** Exceptions the script can meet.  [OtherError] stands for whatever the
    radio or the MQTT stack raises (all subclasses of [Exception]). *)
Inductive exn : Type :=
| KeyError (key : pyval)
| TypeError (what : string)
| ValueError (what : string)
| IndexError
| OverflowError (what : string)
| OtherError (detail : string).

Definition is_KeyError (e : exn) : bool :=
  match e with KeyError _ => true | _ => false end.

(** Structural induction that reaches below lists and dicts. *)
Section pyval_nested_ind.
Variable P : pyval -> Prop.
Hypothesis HNone : P VNone.
Hypothesis HBool : forall b, P (VBool b).
Hypothesis HInt : forall n, P (VInt n).
Hypothesis HFloat : forall x, P (VFloat x).
Hypothesis HInf : forall s, P (VInf s).
Hypothesis HStr : forall s, P (VStr s).
Hypothesis HList : forall l, Forall P l -> P (VList l).
Hypothesis HDict : forall d, Forall (fun kv => P (snd kv)) d -> P (VDict d).

Fixpoint pyval_nested_ind (v : pyval) : P v :=
  match v with
  | VNone => HNone
  | VBool b => HBool b
  | VInt n => HInt n
  | VFloat x => HFloat x
  | VInf s => HInf s
  | VStr s => HStr s
  | VList l =>
      HList l ((fix go (l : list pyval) : Forall P l :=
                  match l with
                  | [] => List.Forall_nil P
                  | x :: r => @List.Forall_cons _ P x r (pyval_nested_ind x) (go r)
                  end) l)
  | VDict d =>
      HDict d ((fix go (d : list (string * pyval))
                 : Forall (fun kv => P (snd kv)) d :=
                  match d with
                  | [] => List.Forall_nil _
                  | kv :: r =>
                      @List.Forall_cons _ (fun kv => P (snd kv)) kv r
                                        (pyval_nested_ind (snd kv)) (go r)
                  end) d)
  end.
End pyval_nested_ind.

(** *** Truth value ([if x:]) *)

Definition py_truthy (v : pyval) : bool :=
  match v with
  | VNone => false
  | VBool b => b
  | VInt n => negb (n =? 0)
  | VFloat x => negb (Qeq_bool x 0)
  | VInf _ => true
  | VStr s => negb (String.eqb s "")
  | VList l => match l with [] => false | _ => true end
  | VDict d => match d with [] => false | _ => true end
  end.

(** *** Numbers *)

(** The exact value of a finite number.  Python compares an int with a
    float by their exact values, so [==] and the truth test go through
    it; arithmetic does not (see [to_float]). *)
Definition as_number (v : pyval) : option Q :=
  match v with
  | VBool b => Some (inject_Z (if b then 1 else 0))
  | VInt n => Some (inject_Z n)
  | VFloat x => Some x
  | _ => None
  end.

(** *** Equality ([==], [!=]) *)

(** First binding of a key, the value [d[k]] denotes. *)
Fixpoint assoc (k : string) (d : list (string * pyval)) : option pyval :=
  match d with
  | [] => None
  | kv :: r => if String.eqb k (fst kv) then Some (snd kv) else assoc k r
  end.

Definition has_key (k : string) (d : list (string * pyval)) : bool :=
  existsb (String.eqb k) (map fst d).

(** Two lists are equal when they have the same length and equal items. *)
Definition list_eq (eq : pyval -> pyval -> bool) : list pyval -> list pyval -> bool :=
  fix go (la lb : list pyval) {struct la} : bool :=
    match la, lb with
    | [], [] => true
    | x :: la', y :: lb' => eq x y && go la' lb'
    | _, _ => false
    end.

(** Every key of [da], at its first binding, is bound in [db] to an equal
    value.  [seen] holds the keys already met. *)
Definition dict_sub (eq : pyval -> pyval -> bool) (db : list (string * pyval))
    : list string -> list (string * pyval) -> bool :=
  fix sub (seen : list string) (da : list (string * pyval)) {struct da} : bool :=
    match da with
    | [] => true
    | kv :: da' =>
        (if existsb (String.eqb (fst kv)) seen then true
         else match assoc (fst kv) db with
              | Some v' => eq (snd kv) v'
              | None => false
              end)
        && sub (fst kv :: seen) da'
    end.

Fixpoint py_eq (a b : pyval) {struct a} : bool :=
  match a with
  | VNone => match b with VNone => true | _ => false end
  | VBool _ | VInt _ | VFloat _ =>
      match as_number a, as_number b with
      | Some x, Some y => Qeq_bool x y
      | _, _ => false
      end
  | VInf s => match b with VInf s' => Bool.eqb s s' | _ => false end
  | VStr s => match b with VStr t => String.eqb s t | _ => false end
  | VList la =>
      match b with
      | VList lb => list_eq py_eq la lb
      | _ => false
      end
  | VDict da =>
      match b with
      | VDict db =>
          dict_sub py_eq db [] da
          && forallb (fun kv => has_key (fst kv) da) db
      | _ => false
      end
  end.

Definition py_ne (a b : pyval) : bool := negb (py_eq a b).

Definition is_none (v : pyval) : bool :=
  match v with VNone => true | _ => false end.

(** *** Binary floating point *)

(** The integer nearest to [a / b] for [b > 0], ties to even. *)
Definition round_half_even (a b : Z) : Z :=
  let q := a / b in
  match 2 * (a mod b) ?= b with
  | Lt => q
  | Gt => q + 1
  | Eq => if Z.even q then q else q + 1
  end.

(** The integer nearest to [n / (d * 2 ^ e)]. *)
Definition nearest (n d e : Z) : Z :=
  if 0 <=? e then round_half_even n (d * 2 ^ e)
  else round_half_even (n * 2 ^ (- e)) d.

(** [m * 2 ^ e], in lowest terms. *)
Definition dyadic (m e : Z) : Q :=
  Qred (if 0 <=? e then inject_Z (m * 2 ^ e) else m # Z.to_pos (2 ^ (- e))).

(** [n / d > 0] rounded to 53 significant bits, the last of them worth at
    least [2 ^ -1074].  With [e] as chosen first, [n / (d * 2 ^ e)] lies
    between [2 ^ 52] and [2 ^ 54]; when its rounding needs 54 bits the
    last bit is worth twice as much. *)
Definition round53_pos (n d : Z) : Q :=
  let e := Z.max (Z.log2 n - Z.log2 d - 53) (-1074) in
  let m := nearest n d e in
  if m <? 2 ^ 53 then dyadic m e else dyadic (nearest n d (e + 1)) (e + 1).

(** The binary64 number nearest to [q], ties to even, were the exponent
    range unbounded above. *)
Definition round53 (q : Q) : Q :=
  let r := Qred q in
  match Qnum r with
  | Z0 => 0%Q
  | Zpos n => round53_pos (Zpos n) (Zpos (Qden r))
  | Zneg n => (- round53_pos (Zpos n) (Zpos (Qden r)))%Q
  end.

(** A float that is a number. *)
Variant float : Type :=
| Fin (x : Q)
| Inf (negative : bool).

(** The largest finite binary64 number. *)
Definition MAX_FLOAT : Q := inject_Z ((2 ^ 53 - 1) * 2 ^ 971).

(** The float an exact result is rounded to: beyond [MAX_FLOAT] the
    rounding overflows to an infinity. *)
Definition fl (q : Q) : float :=
  let x := round53 q in
  if Qle_bool x MAX_FLOAT && Qle_bool (- MAX_FLOAT) x then Fin x
  else Inf (negb (Qle_bool 0 x)).

Definition of_float (f : float) : pyval :=
  match f with
  | Fin x => VFloat x
  | Inf s => VInf s
  end.

(** The float operand that [+] and [*] make of a value when the other
    operand is a float: a bool or an int is converted, which fails for an
    int beyond the float range; [what] is the complaint about any other
    value. *)
Definition to_float (v : pyval) (what : string) : exn + float :=
  match v with
  | VBool b => inr (Fin (inject_Z (if b then 1 else 0)))
  | VInt n =>
      match fl (inject_Z n) with
      | Fin x => inr (Fin x)
      | Inf _ => inl (OverflowError "int too large to convert to float")
      end
  | VFloat x => inr (Fin x)
  | VInf s => inr (Inf s)
  | _ => inl (TypeError what)
  end.

(** *** Arithmetic used by the script *)

(** [int(x)] truncates toward zero. *)
Definition py_int_of_float (x : Q) : Z :=
  if Qle_bool 0 x then Qfloor x else Qceiling x.

(** [x % y] on floats for a positive modulus [y]: the remainder of the
    division truncated toward zero is exact and has the sign of [x]; a
    negative one is moved into range by adding [y], and that sum is
    rounded.  The result is at most [y] in magnitude, so the rounding
    cannot overflow. *)
Definition py_fmod (x y : Q) : Q :=
  let t := (x - y * inject_Z (py_int_of_float (x / y)))%Q in
  if Qle_bool 0 t then t else round53 (t + y).

(** [round(x, 0)] rounds half to even. *)
Definition py_round (x : Q) : Z :=
  let f := Qfloor x in
  let frac := (x - inject_Z f)%Q in
  match Qcompare frac (1 # 2) with
  | Lt => f
  | Gt => f + 1
  | Eq => if Z.even f then f else f + 1
  end.

(** [seq[i]] for a list, negative indices counted from the end. *)
Definition py_list_getitem {A} (l : list A) (i : Z) : option A :=
  if 0 <=? i then l !! Z.to_nat i
  else if 0 <=? Z.of_nat (length l) + i
       then l !! Z.to_nat (Z.of_nat (length l) + i)
       else None.

Fixpoint repeat_string (n : nat) (s : string) : string :=
  match n with O => "" | S n' => (s ++ repeat_string n' s)%string end.

(** The two literals the script multiplies by: [100] (line 175) and
    [0.6214] (lines 176 and 178). *)
Variant factor : Type :=
| Times100
| Times06214.

(** The float a factor denotes; the literal [0.6214] is read as the
    nearest float. *)
Definition factor_value (k : factor) : Q :=
  match k with
  | Times100 => 100%Q
  | Times06214 => round53 0.6214%Q
  end.

(** [a * k].  With the int factor a bool or an int gives an int and a str
    or a list is repeated; in every other case of two numbers the product
    is a float: the exact product rounded, an infinity when that
    overflows or when [a] is one (both factors are positive). *)
Definition py_mul (a : pyval) (k : factor) : exn + pyval :=
  match a, k with
  | VBool b, Times100 => inr (VInt ((if b then 1 else 0) * 100))
  | VInt m, Times100 => inr (VInt (m * 100))
  | VStr s, Times100 => inr (VStr (repeat_string 100 s))
  | VList l, Times100 => inr (VList (mjoin (replicate 100 l)))
  | VStr _, Times06214 | VList _, Times06214 =>
      inl (TypeError "can't multiply sequence by non-int of type 'float'")
  | _, _ =>
      match to_float a "unsupported operand type(s) for *" with
      | inl e => inl e
      | inr (Fin x) => inr (of_float (fl (x * factor_value k)%Q))
      | inr (Inf s) => inr (VInf s)
      end
  end.

(** [obj[key]] with a str key, as the script writes it. *)
Definition py_getitem (obj : pyval) (key : string) : exn + pyval :=
  match obj with
  | VDict d => match assoc key d with
               | Some v => inr v
               | None => inl (KeyError (VStr key))
               end
  | VList _ => inl (TypeError "list indices must be integers")
  | VStr _ => inl (TypeError "string indices must be integers")
  | _ => inl (TypeError "object is not subscriptable")
  end.

(** ** [wind_direction] (code.py, lines 55-58) *)

Definition COMPASS : list string :=
  ["N"; "NE"; "E"; "SE"; "S"; "SW"; "W"; "NW"].

(** [heading + 22.5]: the float sum, an infinity when the heading is one
    or the sum overflows. *)
Definition add_22_5 (h : float) : float :=
  match h with
  | Fin x => fl (x + 22.5)%Q
  | Inf s => Inf s
  end.

(** The remainder of an infinity is NaN, the quotient of NaN by 45 is NaN,
    and [int()] of NaN raises [ValueError].  The remainder of a finite sum
    is at most 360 in magnitude, so its quotient by 45 is finite. *)
Definition wind_direction (heading : pyval) : exn + pyval :=
  if is_none heading then inr (VStr "--")
  else
    match to_float heading "unsupported operand type(s) for +" with
    | inl e => inl e
    | inr h =>
        match add_22_5 h with
        | Inf _ => inl (ValueError "cannot convert float NaN to integer")
        | Fin s =>
            let i := py_int_of_float (round53 (py_fmod s 360 / 45)%Q) in
            match py_list_getitem COMPASS i with
            | Some label => inr (VStr label)
            | None => inl IndexError
            end
        end
    end.

(** ** Effects: globals, exceptions, and the trace of external actions *)

(** A piece of an f-string handed to [print]. *)
Inductive frag : Type :=
| Lit (s : string)
| Val (v : pyval)
| Err (e : exn).

(** What the board does that the outside can observe, in program order. *)
Inductive event : Type :=
| EPixel (colour : Z)                       (* pixel[0] = colour *)
| ELed (on : bool)                          (* led.value = on *)
| ESleep (seconds : Q)                      (* time.sleep(seconds) *)
| EPrint (text : list frag)                 (* print(f"...") *)
| EWifiConnect (ssid password : pyval)      (* wifi.radio.connect(..) *)
| EConnect                                  (* aio.connect() *)
| EReconnect                                (* aio.reconnect() *)
| ESubscribeWeather (key : Z) (mode : string)
| ELoop (timeout : Z)                       (* aio.loop(timeout) *)
| EPublish (feed : string) (value : pyval)  (* aio.publish(feed, value) *)
| EReload.                                  (* supervisor.reload() *)

(** The module-level variables of the script, and the number of calls made
    so far into the environment. *)
Record globals : Type := mkGlobals {
  weather_data : pyval;
  weather_data_old : pyval;
  calls : nat
}.

(** How a piece of code ends: normally, by an exception that is still
    travelling, or in [supervisor.reload()], which no handler of the script
    intercepts and after which nothing of this run is executed. *)
Inductive outcome (A : Type) : Type :=
| Ret (a : A)
| Raise (e : exn)
| Reload.
Arguments Ret {A} a.
Arguments Raise {A} e.
Arguments Reload {A}.

Definition M (A : Type) : Type := globals -> outcome A * globals * list event.

Definition ret {A} (a : A) : M A := fun g => (Ret a, g, []).

Definition bind {A B} (c : M A) (k : A -> M B) : M B :=
  fun g =>
    match c g with
    | (Ret a, g1, t1) => let '(r, g2, t2) := k a g1 in (r, g2, t1 ++ t2)
    | (Raise e, g1, t1) => (Raise e, g1, t1)
    | (Reload, g1, t1) => (Reload, g1, t1)
    end.

#[global] Instance M_ret : MRet M := @ret.
#[global] Instance M_bind : MBind M := fun A B k c => bind c k.

Definition raise {A} (e : exn) : M A := fun g => (Raise e, g, []).
Definition emit (e : event) : M unit := fun g => (Ret tt, g, [e]).
Definition lift {A} (r : exn + A) : M A :=
  match r with inl e => raise e | inr a => ret a end.

(** [try: body / except <class> as e: handler e].  [catches] tells which
    exceptions the clause names; [Reload] passes through. *)
Definition try_except {A} (catches : exn -> bool)
    (body : M A) (handler : exn -> M A) : M A :=
  fun g =>
    match body g with
    | (Raise e, g1, t1) =>
        if catches e
        then let '(r, g2, t2) := handler e g1 in (r, g2, t1 ++ t2)
        else (Raise e, g1, t1)
    | other => other
    end.

(** [except Exception]: every exception of the model. *)
Definition any_Exception (e : exn) : bool := true.

Definition get_weather_data : M pyval := fun g => (Ret (weather_data g), g, []).
Definition get_weather_data_old : M pyval :=
  fun g => (Ret (weather_data_old g), g, []).
Definition set_weather_data (v : pyval) : M unit :=
  fun g => (Ret tt, mkGlobals v (weather_data_old g) (calls g), []).
Definition set_weather_data_old (v : pyval) : M unit :=
  fun g => (Ret tt, mkGlobals (weather_data g) v (calls g), []).

(** Take the next answer of the environment. *)
Definition next_call : M nat :=
  fun g => (Ret (calls g),
            mkGlobals (weather_data g) (weather_data_old g) (S (calls g)), []).

(** ** What the script imports *)

(** Library code and the icon table are outside the script; they are taken
    as given.  [repr_other] is the text [str()] makes of floats, lists and
    dicts. *)
Record runtime : Type := mkRuntime {
  json_loads : string -> exn + pyval;
  celsius_to_fahrenheit : pyval -> exn + pyval;
  kit_to_map_icon : gmap string (string * string);
  datetime : Type;
  fromisoformat : string -> exn + datetime;
  minus_hours : datetime -> Z -> exn + datetime;
  str_datetime : datetime -> string;
  repr_other : pyval -> string;
  getenv : string -> pyval
}.

(** A call-back the MQTT helper may invoke while it is being serviced. *)
Inductive callback : Type :=
| OnMessage (feed_id payload : string)
| OnSubscribe (topic : string) (granted_qos : Z).

(** The environment.  The [n]-th call into it ([n] counts from the start of
    the run) returns normally when [reply n] is [None] and raises otherwise;
    when that call is [aio.loop] or [aio.subscribe_to_weather] the helper
    first invokes [callbacks n] in order; when it is [time.monotonic()] it
    returns [monotonic n]; when it is [mqtt_client.is_connected()] it
    returns [connected n].  [aio.connect], [aio.reconnect] and
    [aio.publish] invoke no call-back. *)
Record world : Type := mkWorld {
  reply : nat -> option exn;
  callbacks : nat -> list callback;
  monotonic : nat -> Q;
  connected : nat -> bool
}.

Definition GREEN : Z := 0x00FF00.
Definition RED : Z := 0xFF0000.
Definition YELLOW : Z := 0xFFFF00.
Definition BLACK : Z := 0x000000.

Definition W_TOPIC_KEY : Z := 2730.
Definition W_TOPIC_DESC : string := "Seattle, WA".

(** ** The script *)

(** The locals of the loop body that the publish calls read. *)
Record derived : Type := mkDerived {
  weatherkit_desc : pyval;
  weatherkit_temp : pyval;
  weatherkit_humid : pyval;
  weatherkit_wind_speed : pyval;
  weatherkit_wind_dir : pyval;
  weatherkit_wind_gusts : pyval;
  weatherkit_daylight : pyval
}.

(** [g] after [n] more calls into the environment. *)
Definition bump (n : nat) (g : globals) : globals :=
  mkGlobals (weather_data g) (weather_data_old g) (n + calls g).

Section Script.
Context (rt : runtime) (w : world).

(** *** Primitive statements *)

Definition time_sleep (seconds : Q) : M unit := emit (ESleep seconds).
Definition print (text : list frag) : M unit := emit (EPrint text).
Definition set_pixel (colour : Z) : M unit := emit (EPixel colour).
Definition set_led (on : bool) : M unit := emit (ELed on).

Definition supervisor_reload {A} : M A := fun g => (Reload, g, [EReload]).

Definition answer (n : nat) : M unit :=
  match reply w n with
  | None => ret tt
  | Some e => raise e
  end.

Definition time_monotonic : M Q := n ← next_call; ret (monotonic w n).

Definition wifi_radio_connect (ssid password : pyval) : M unit :=
  emit (EWifiConnect ssid password);; n ← next_call; answer n.

Definition aio_connect : M unit := emit EConnect;; n ← next_call; answer n.

Definition aio_reconnect : M unit :=
  emit EReconnect;; n ← next_call; answer n.

Definition aio_publish (feed : string) (value : pyval) : M unit :=
  emit (EPublish feed value);; n ← next_call; answer n.

(** *** [subscribe] and [message] (lines 42-52) *)

Definition subscribe (topic : string) (granted_qos : Z) : M unit :=
  print [Lit "  ... subscribed to '"; Val (VStr topic);
         Lit "' with QOS level "; Val (VInt granted_qos)].

Definition message (feed_id payload : string) : M unit :=
  if String.eqb feed_id "weather"
  then v ← lift (json_loads rt payload); set_weather_data v
  else ret tt.

Definition run_callback (cb : callback) : M unit :=
  match cb with
  | OnMessage feed_id payload => message feed_id payload
  | OnSubscribe topic qos => subscribe topic qos
  end.

Fixpoint run_callbacks (cbs : list callback) : M unit :=
  match cbs with
  | [] => ret tt
  | cb :: rest => run_callback cb;; run_callbacks rest
  end.

Definition aio_subscribe_to_weather (key : Z) (mode : string) : M unit :=
  emit (ESubscribeWeather key mode);;
  n ← next_call; run_callbacks (callbacks w n);; answer n.

Definition aio_loop (timeout : Z) : M unit :=
  emit (ELoop timeout);;
  n ← next_call; run_callbacks (callbacks w n);; answer n.

(** *** [publish_to_aio] (lines 61-89) *)

Definition publish_to_aio (value : pyval) (feed : string) : M unit :=
  if negb (is_none value) then
    time_sleep 2.5;;
    try_except any_Exception
      (aio_publish feed value;;
       set_pixel GREEN;;
       print [Lit "  ... SUCCESS: published '"; Val value;
              Lit "' to AIO '"; Val (VStr feed); Lit "'"])
      (fun aio_publish_error =>
         set_pixel RED;;
         print [Lit "  FAILED to publish '"; Val value;
                Lit "' to AIO '"; Val (VStr feed); Lit "'"];;
         print [Lit "    publish error: "; Err aio_publish_error];;
         print [Lit "attempting to reconnect to AIO..."];;
         try_except any_Exception
           (aio_reconnect;;
            set_pixel GREEN)
           (fun pub_reconnect_error =>
              set_pixel RED;;
              print [Lit "  FAILED: publish aio.reconnect ";
                     Err pub_reconnect_error];;
              print [Lit "      MCU will soft reset in 60 seconds."];;
              time_sleep 60;;
              supervisor_reload))
  else
    print [Lit "  FAILED to publish '"; Val value;
           Lit "' to AIO '"; Val (VStr feed); Lit "'"].

(** *** [busy] (lines 92-100) *)

Fixpoint blink (n : nat) : M unit :=
  match n with
  | O => ret tt
  | S n' =>
      set_led true;; time_sleep 0.05;; set_led false;; time_sleep 0.95;;
      blink n'
  end.

(** [delay] is an int at both call sites, so [int(round(delay, 0))] is
    [delay] itself. *)
Definition busy (delay : Z) : M unit :=
  set_pixel BLACK;; blink (Z.to_nat delay).

(** *** The icon look-up of the loop (lines 192-201) *)

Definition py_str (v : pyval) : string :=
  match v with
  | VNone => "None"
  | VBool true => "True"
  | VBool false => "False"
  | VInt n => pretty n
  | VStr s => s
  | _ => repr_other rt v
  end.

(** [kit_to_map_icon[key]]: the table is keyed by str; lists and dicts do
    not hash. *)
Definition table_getitem (key : pyval) : exn + (string * string) :=
  match key with
  | VStr s => match kit_to_map_icon rt !! s with
              | Some entry => inr entry
              | None => inl (KeyError key)
              end
  | VList _ | VDict _ => inl (TypeError "unhashable type")
  | _ => inl (KeyError key)
  end.

(** Returns [(icon, long_desc)]. *)
Definition icon_and_description (weatherkit_desc weatherkit_daylight : pyval)
    : M (string * string) :=
  try_except is_KeyError
    (icon ← (if py_truthy weatherkit_daylight
             then e ← lift (table_getitem weatherkit_desc);
                  ret (snd e ++ "d")%string
             else e ← lift (table_getitem weatherkit_desc);
                  ret (snd e ++ "n")%string);
     e ← lift (table_getitem weatherkit_desc);
     ret (icon, fst e))
    (fun desc_error =>
       print [Lit "  NO Description: "; Err desc_error];;
       ret ("99d", ("unknown description: " ++ py_str weatherkit_desc)%string)).

(** *** The loop body (lines 149-218) *)

(** Lines 151-169: service the broker. *)
Definition fetch : M unit :=
  try_except any_Exception
    (set_pixel YELLOW;;
     time_sleep 2.5;;
     aio_loop 10;;
     set_pixel GREEN)
    (fun loop_error =>
       set_pixel RED;;
       print [Lit "  FAILED: aio.loop "; Err loop_error];;
       print [Lit "    attempting to reconnect to AIO"];;
       try_except any_Exception
         (time_sleep 10;;
          aio_connect;;
          set_pixel GREEN)
         (fun loop_reconnect_error =>
            set_pixel RED;;
            print [Lit "  FAILED: loop aio.reconnect ";
                   Err loop_reconnect_error];;
            print [Lit "      MCU will soft reset in 60 seconds."];;
            time_sleep 60;;
            supervisor_reload)).

Definition weather_field (key : string) : M pyval :=
  wd ← get_weather_data; lift (py_getitem wd key).

(** [s[:-1]] *)
Definition drop_last (s : string) : string :=
  substring 0 (String.length s - 1) s.

(** [adafruit_datetime.datetime.fromisoformat(ts[:-1])] *)
Definition parse_timestamp (ts : pyval) : exn + datetime rt :=
  match ts with
  | VStr s => fromisoformat rt (drop_last s)
  | VList _ => inl (TypeError "fromisoformat: argument must be str")
  | _ => inl (TypeError "object is not subscriptable")
  end.

(** Lines 173-203: the locals computed from the new observation. *)
Definition derive : M derived :=
  weatherkit_desc ← weather_field "conditionCode";
  temperature ← weather_field "temperature";
  weatherkit_temp ← lift (celsius_to_fahrenheit rt temperature);
  humidity ← weather_field "humidity";
  weatherkit_humid ← lift (py_mul humidity Times100);
  windSpeed ← weather_field "windSpeed";
  weatherkit_wind_speed ← lift (py_mul windSpeed Times06214);
  windDirection ← weather_field "windDirection";
  weatherkit_wind_dir ← lift (wind_direction windDirection);
  windGust ← weather_field "windGust";
  weatherkit_wind_gusts ← lift (py_mul windGust Times06214);
  metadata ← weather_field "metadata";
  weatherkit_timestamp ← lift (py_getitem metadata "readTime");
  weatherkit_daylight ← weather_field "daylight";
  print [Lit "------------- NEW -------------"];;
  print [Lit "timestamp: "; Val weatherkit_timestamp];;
  sample_time ← lift (parse_timestamp weatherkit_timestamp);
  print [Lit "sample_time: "; Lit (str_datetime rt sample_time)];;
  local_time ← lift (minus_hours rt sample_time 7);
  print [Lit "local_time: "; Lit (str_datetime rt local_time)];;
  il ← icon_and_description weatherkit_desc weatherkit_daylight;
  print [Lit "icon: "; Lit (fst il)];;
  print [Lit "long_description: "; Lit (snd il)];;
  ret {| weatherkit_desc := weatherkit_desc;
         weatherkit_temp := weatherkit_temp;
         weatherkit_humid := weatherkit_humid;
         weatherkit_wind_speed := weatherkit_wind_speed;
         weatherkit_wind_dir := weatherkit_wind_dir;
         weatherkit_wind_gusts := weatherkit_wind_gusts;
         weatherkit_daylight := weatherkit_daylight |}.

(** [int(round(now / 60, 0))] for the float [now] that [time.monotonic()]
    returned: the quotient of a float by 60 is smaller in magnitude, so
    its rounding cannot overflow. *)
Definition watchdog_minutes (now : Q) : Z := py_round (round53 (now / 60)%Q).

(** Lines 205-212: the eight calls of [publish_to_aio]. *)
Definition publish_all (d : derived) : M unit :=
  now ← time_monotonic;
  publish_to_aio (VInt (watchdog_minutes now)) "system-watchdog";;
  publish_to_aio (weatherkit_desc d) "weather-description";;
  publish_to_aio (weatherkit_humid d) "weather-humidity";;
  publish_to_aio (weatherkit_temp d) "weather-temperature";;
  publish_to_aio (weatherkit_wind_dir d) "weather-winddirection";;
  publish_to_aio (weatherkit_wind_gusts d) "weather-windgusts";;
  publish_to_aio (weatherkit_wind_speed d) "weather-windspeed";;
  publish_to_aio (VStr (py_str (weatherkit_daylight d))) "weather-daylight".

(** Lines 173-214: a new observation is decoded, republished and
    remembered. *)
Definition republish : M unit :=
  d ← derive;
  publish_all d;;
  current ← get_weather_data;
  set_weather_data_old current.

(** The arguments of the eight calls, in program order. *)
Definition plan (now : Q) (d : derived) : list (string * pyval) :=
  [("system-watchdog", VInt (watchdog_minutes now));
   ("weather-description", weatherkit_desc d);
   ("weather-humidity", weatherkit_humid d);
   ("weather-temperature", weatherkit_temp d);
   ("weather-winddirection", weatherkit_wind_dir d);
   ("weather-windgusts", weatherkit_wind_gusts d);
   ("weather-windspeed", weatherkit_wind_speed d);
   ("weather-daylight", VStr (py_str (weatherkit_daylight d)))].

(** [publish_to_aio] over a list of (feed, value) pairs. *)
Fixpoint send (l : list (string * pyval)) : M unit :=
  match l with
  | [] => ret tt
  | fv :: rest => publish_to_aio (snd fv) (fst fv);; send rest
  end.

(** Lines 171-218: change detection. *)
Definition process : M unit :=
  wd ← get_weather_data;
  if py_truthy wd then
    wd_new ← get_weather_data;
    wd_old ← get_weather_data_old;
    (if py_ne wd_new wd_old then republish else ret tt);;
    busy 120
  else
    print [Lit "  ... waiting for weather observations from ";
           Val (VStr W_TOPIC_DESC)];;
    busy 10.

(** One turn of [while True]. *)
Definition cycle : M unit := fetch;; process.

(** [n] turns of the loop. *)
Fixpoint cycles (n : nat) : M unit :=
  match n with
  | O => ret tt
  | S n' => cycle;; cycles n'
  end.

(** *** Start-up (lines 25-147) *)

(** Display brightness, pin direction and the construction of the socket
    pool, the session and the MQTT client (lines 26, 30, 118-133) leave no
    trace. *)

(** [mqtt_client.is_connected()] either answers or raises. *)
Definition mqtt_is_connected : M pyval :=
  n ← next_call; answer n;; ret (VBool (connected w n)).

Definition startup : M unit :=
  set_led false;;
  set_pixel YELLOW;;
  try_except any_Exception
    (print [Lit "Connecting to "; Val (getenv rt "CIRCUITPY_WIFI_SSID")];;
     wifi_radio_connect (getenv rt "CIRCUITPY_WIFI_SSID")
                        (getenv rt "CIRCUITPY_WIFI_PASSWORD");;
     set_pixel GREEN;;
     print [Lit "  SUCCESS: connected to WiFi access point"])
    (fun wifi_access_error =>
       set_pixel RED;;
       print [Lit "  FAILED: connect to WiFi. Error: "; Err wifi_access_error];;
       print [Lit "      MCU will soft reset in 60 seconds."];;
       time_sleep 60;;
       supervisor_reload);;
  print [Lit "  ... IO MQTT helper initialized"];;
  aio_connect;;
  connected ← mqtt_is_connected;
  print [Lit "  ... IO MQTT connected: "; Val connected];;
  aio_subscribe_to_weather W_TOPIC_KEY "current";;
  set_weather_data VNone;;
  set_weather_data_old VNone.

(** The script, cut off after [n] turns of its loop. *)
Definition script (n : nat) : M unit := startup;; cycles n.
End Script.

(** ** Reading a trace *)

Definition publishes (t : list event) : list (string * pyval) :=
  omap (fun e => match e with EPublish f v => Some (f, v) | _ => None end) t.

Definition is_reload (e : event) : bool :=
  match e with EReload => true | _ => false end.

Definition is_led (e : event) : bool :=
  match e with ELed _ => true | _ => false end.

Definition reloads (t : list event) : nat := length (filter is_reload t).

(** What [blink n] and [busy delay] leave in the trace. *)
Fixpoint blink_trace (n : nat) : list event :=
  match n with
  | O => []
  | S n' => ELed true :: ESleep 0.05 :: ELed false :: ESleep 0.95 :: blink_trace n'
  end.

Definition busy_trace (delay : Z) : list event :=
  EPixel BLACK :: blink_trace (Z.to_nat delay).

(** The three statements every fatal handler of the script ends with. *)
Definition RESTART_TAIL : list event :=
  [EPrint [Lit "      MCU will soft reset in 60 seconds."]; ESleep 60; EReload].

(** A trace that ends in a fatal handler: red pixel, the error line, the
    announcement, one plain sleep, the reload; no reload before. *)
Definition restart_trace (t : list event) : Prop :=
  exists pre msg e,
    t = pre ++ [EPixel RED; EPrint [Lit msg; Err e]] ++ RESTART_TAIL
    /\ reloads pre = 0%nat.

(** A trace waits [seconds] by blinking when it contains the trace of
    [blink seconds]. *)
Definition waits_by_blinking (t : list event) (seconds : Z) : Prop :=
  exists pre post, t = pre ++ blink_trace (Z.to_nat seconds) ++ post.

(** The eight feeds in the order of lines 205-212. *)
Definition FEEDS : list string :=
  ["system-watchdog"; "weather-description"; "weather-humidity";
   "weather-temperature"; "weather-winddirection"; "weather-windgusts";
   "weather-windspeed"; "weather-daylight"].

(** Values that [publish_to_aio] does send. *)
Definition present (plan : list (string * pyval)) : list (string * pyval) :=
  filter (fun fv => negb (is_none (snd fv))) plan.

(** [kit_to_map_icon[key]] raises [KeyError]: the key hashes and the table
    has no entry for it. *)
Definition misses (rt : runtime) (key : pyval) : Prop :=
  table_getitem rt key = inl (KeyError key).

(** The icon that would follow the daylight flag on a miss. *)
Definition icon_by_daylight (daylight : pyval) : string :=
  if py_truthy daylight then "99d" else "99n".

(** The locals [d] are those lines 173-180 compute from [wd]. *)
Definition derived_from (rt : runtime) (wd : pyval) (d : derived) : Prop :=
  py_getitem wd "conditionCode" = inr (weatherkit_desc d)
  /\ (exists c, py_getitem wd "temperature" = inr c
                /\ celsius_to_fahrenheit rt c = inr (weatherkit_temp d))
  /\ (exists h, py_getitem wd "humidity" = inr h
                /\ py_mul h Times100 = inr (weatherkit_humid d))
  /\ (exists s, py_getitem wd "windSpeed" = inr s
                /\ py_mul s Times06214 = inr (weatherkit_wind_speed d))
  /\ (exists h, py_getitem wd "windDirection" = inr h
                /\ wind_direction h = inr (weatherkit_wind_dir d))
  /\ (exists s, py_getitem wd "windGust" = inr s
                /\ py_mul s Times06214 = inr (weatherkit_wind_gusts d))
  /\ py_getitem wd "daylight" = inr (weatherkit_daylight d).

(** No two consecutive calls into the environment fail: after a failed
    publish the reconnect goes through. *)
Definition no_double_failure (w : world) : Prop :=
  forall n, reply w n = None \/ reply w (S n) = None.

(** From call [n] on, the broker hands no weather message to [message]. *)
Definition is_weather (cb : callback) : bool :=
  match cb with
  | OnMessage feed_id _ => String.eqb feed_id "weather"
  | OnSubscribe _ _ => false
  end.

Definition quiet_from (w : world) (n : nat) : Prop :=
  forall m, (n <= m)%nat -> existsb is_weather (callbacks w m) = false.

(** The call-back brings no observation that differs from [v0]: it is not
    a weather message, or its payload does not decode, or it decodes to a
    value equal to [v0]. *)
Definition brings_nothing_new (rt : runtime) (v0 : pyval) (cb : callback)
    : Prop :=
  match cb with
  | OnMessage feed_id payload =>
      String.eqb feed_id "weather" = true ->
      forall v, json_loads rt payload = inr v -> py_ne v v0 = false
  | OnSubscribe _ _ => True
  end.

(** From call [n] on, no observation that differs from [v0] arrives. *)
Definition nothing_new_from (rt : runtime) (w : world) (n : nat) (v0 : pyval)
    : Prop :=
  forall m, (n <= m)%nat -> Forall (brings_nothing_new rt v0) (callbacks w m).

(** ** A concrete runtime and concrete environments *)

Definition obs_clear : pyval :=
  VDict [("conditionCode", VStr "Clear");
         ("temperature", VInt 20);
         ("humidity", VFloat 0.5);
         ("windSpeed", VInt 5);
         ("windGust", VInt 8);
         ("windDirection", VInt 90);
         ("daylight", VBool true);
         ("metadata", VDict [("readTime", VStr "2024-01-01T12:00:00Z")])].

Definition obs_tornado_night : pyval :=
  VDict [("conditionCode", VStr "Tornado");
         ("temperature", VInt 10);
         ("humidity", VFloat 0.25);
         ("windSpeed", VInt 40);
         ("windGust", VInt 60);
         ("windDirection", VNone);
         ("daylight", VBool false);
         ("metadata", VDict [("readTime", VStr "2024-01-01T23:00:00Z")])].

(** An observation whose condition code is JSON [null]. *)
Definition obs_no_code : pyval :=
  VDict [("conditionCode", VNone);
         ("temperature", VFloat 1.5);
         ("humidity", VInt 1);
         ("windSpeed", VInt 0);
         ("windGust", VInt 0);
         ("windDirection", VFloat 359.5);
         ("daylight", VBool true);
         ("metadata", VDict [("readTime", VStr "2024-01-02T08:00:00Z")])].

(** Stands for the JSON decoder on three payloads. *)
Definition demo_json_loads (payload : string) : exn + pyval :=
  if String.eqb payload "clear" then inr obs_clear
  else if String.eqb payload "tornado" then inr obs_tornado_night
  else if String.eqb payload "nocode" then inr obs_no_code
  else inl (ValueError "syntax error in JSON").

(** Modelled from the spec: [celsius_to_fahrenheit] belongs to an imported
    library; section 4.1 gives [f = c * 9/5 + 32]. *)
Definition demo_celsius_to_fahrenheit (c : pyval) : exn + pyval :=
  match as_number c with
  | Some x => inr (VFloat (x * (9 # 5) + 32))
  | None => inl (TypeError "unsupported operand type(s) for *")
  end.

Definition demo_table : gmap string (string * string) :=
  {[ "Clear" := ("clear sky", "01"); "Rain" := ("rain", "10") ]}.

Definition demo_runtime : runtime :=
  {| json_loads := demo_json_loads;
     celsius_to_fahrenheit := demo_celsius_to_fahrenheit;
     kit_to_map_icon := demo_table;
     datetime := string;
     fromisoformat := fun s => inr s;
     minus_hours := fun d _ => inr d;
     str_datetime := fun d => d;
     repr_other := fun _ => "?";
     getenv := fun _ => VStr "secret" |}.

Definition broken : exn := OtherError "connection lost".

(** The environment in which exactly the calls listed in [bad] fail and the
    calls listed in [mail] deliver the payload next to them on the weather
    feed; the clock stands at 600 s. *)
Definition world_of (bad : list nat) (mail : list (nat * string)) : world :=
  {| reply := fun n => if existsb (Nat.eqb n) bad then Some broken else None;
     callbacks := fun n =>
       omap (fun m => if Nat.eqb (fst m) n
                      then Some (OnMessage "weather" (snd m)) else None) mail;
     monotonic := fun _ => 600%Q;
     connected := fun _ => true |}.

Definition g_start : globals := mkGlobals VNone VNone 0.
Definition g_fresh : globals := mkGlobals obs_clear VNone 0.
Definition g_seen : globals := mkGlobals obs_clear obs_clear 0.

(** What lines 173-203 make of [obs_clear]: the locals and the output. *)
Definition DEMO_DERIVED : derived :=
  {| weatherkit_desc := VStr "Clear";
     weatherkit_temp := VFloat (20 * (9 # 5) + 32);
     weatherkit_humid := VFloat 50;
     weatherkit_wind_speed := VFloat (6996342021120065 # 2251799813685248);
     weatherkit_wind_dir := VStr "E";
     weatherkit_wind_gusts := VFloat (1399268404224013 # 281474976710656);
     weatherkit_daylight := VBool true |}.

Definition DEMO_DERIVE_TRACE : list event :=
  [EPrint [Lit "------------- NEW -------------"];
   EPrint [Lit "timestamp: "; Val (VStr "2024-01-01T12:00:00Z")];
   EPrint [Lit "sample_time: "; Lit "2024-01-01T12:00:00"];
   EPrint [Lit "local_time: "; Lit "2024-01-01T12:00:00"];
   EPrint [Lit "icon: "; Lit "01d"];
   EPrint [Lit "long_description: "; Lit "clear sky"]].

Definition trace_of {A} (r : outcome A * globals * list event) : list event :=
  snd r.
Definition final {A} (r : outcome A * globals * list event) : globals :=
  snd (fst r).
Definition result {A} (r : outcome A * globals * list event) : outcome A :=
  fst (fst r).

(** ** The three ways a call of [publish_to_aio] with a value can go *)

Definition publish_ok_trace (feed : string) (value : pyval) : list event :=
  [ESleep 2.5; EPublish feed value; EPixel GREEN;
   EPrint [Lit "  ... SUCCESS: published '"; Val value;
           Lit "' to AIO '"; Val (VStr feed); Lit "'"]].

Definition publish_failed_trace (feed : string) (value : pyval) (e : exn)
    : list event :=
  [ESleep 2.5; EPublish feed value; EPixel RED;
   EPrint [Lit "  FAILED to publish '"; Val value;
           Lit "' to AIO '"; Val (VStr feed); Lit "'"];
   EPrint [Lit "    publish error: "; Err e];
   EPrint [Lit "attempting to reconnect to AIO..."];
   EReconnect].

Definition publish_recovered_trace (feed : string) (value : pyval) (e : exn)
    : list event :=
  publish_failed_trace feed value e ++ [EPixel GREEN].

Definition publish_fatal_trace (feed : string) (value : pyval) (e e' : exn)
    : list event :=
  publish_failed_trace feed value e
  ++ [EPixel RED; EPrint [Lit "  FAILED: publish aio.reconnect "; Err e']]
  ++ RESTART_TAIL.

(** What the handler of line 156 leaves in the trace up to its call of
    [aio.connect()]. *)
Definition fetch_failed_trace (e : exn) : list event :=
  [EPixel RED;
   EPrint [Lit "  FAILED: aio.loop "; Err e];
   EPrint [Lit "    attempting to reconnect to AIO"];
   ESleep 10;
   EConnect].

Definition fetch_fatal_trace (e e' : exn) : list event :=
  fetch_failed_trace e
  ++ [EPixel RED; EPrint [Lit "  FAILED: loop aio.reconnect "; Err e']]
  ++ RESTART_TAIL.

(** ** Code that neither publishes nor reloads *)

(** [mild c]: [c] publishes nothing, does not reload, leaves
    [weather_data_old] alone and only moves forward in the environment. *)
Definition mild {A} (c : M A) : Prop :=
  forall g,
    publishes (trace_of (c g)) = []
    /\ reloads (trace_of (c g)) = 0%nat
    /\ weather_data_old (final (c g)) = weather_data_old g
    /\ result (c g) <> Reload
    /\ (calls g <= calls (final (c g)))%nat.

(** [calm c]: moreover [weather_data] is left alone. *)
Definition calm {A} (c : M A) : Prop :=
  mild c /\ forall g, weather_data (final (c g)) = weather_data g.

(** [weather_data_old] holds [None] or a value that tests true. *)
Definition committed_ok (g : globals) : Prop :=
  weather_data_old g = VNone \/ py_truthy (weather_data_old g) = true.

(** ** Code that reloads only through a fatal handler *)

(** A run is well ended when either it did not reload and its trace has no
    reload, or it ended in the reload and its trace is a [restart_trace]. *)
Definition well_ended {A} (x : outcome A * globals * list event) : Prop :=
  match result x with
  | Reload => restart_trace (trace_of x)
  | _ => reloads (trace_of x) = 0%nat
  end.

Definition orderly {A} (c : M A) : Prop := forall g, well_ended (c g).

(** ** Further ways to read a trace *)

(** [everywhere P c]: every event [c] leaves in the trace satisfies [P]. *)
Definition everywhere (P : event -> Prop) {A} (c : M A) : Prop :=
  forall g, Forall P (trace_of (c g)).

(** The calls to Adafruit IO that the script spaces out: [aio.loop] and
    [aio.publish]. *)
Definition is_call (e : event) : bool :=
  match e with
  | EPublish _ _ | ELoop _ => true
  | _ => false
  end.

(** [time.sleep(2.5)] *)
Definition is_throttle (e : event) : bool :=
  match e with
  | ESleep s => Qeq_bool s 2.5
  | _ => false
  end.

(** Every [aio.loop] and [aio.publish] of the trace comes straight after a
    [time.sleep(2.5)].  [ready] tells whether the event before the trace
    was such a sleep. *)
Fixpoint throttled_after (ready : bool) (t : list event) : bool :=
  match t with
  | [] => true
  | e :: rest =>
      (if is_call e then ready else true) && throttled_after (is_throttle e) rest
  end.

Definition throttled (t : list event) : bool := throttled_after false t.

(** A publish goes to one of the eight feeds and carries a value. *)
Definition feed_ok (e : event) : Prop :=
  match e with
  | EPublish feed value => feed ∈ FEEDS /\ is_none value = false
  | _ => True
  end.

(** Seconds spent in [time.sleep]. *)
Fixpoint slept (t : list event) : Q :=
  match t with
  | [] => 0
  | ESleep s :: rest => s + slept rest
  | _ :: rest => slept rest
  end.

(** The values written to the LED and to the pixel, in order. *)
Definition leds (t : list event) : list bool :=
  omap (fun e => match e with ELed b => Some b | _ => None end) t.

Definition pixels (t : list event) : list Z :=
  omap (fun e => match e with EPixel c => Some c | _ => None end) t.

(** Calls of [aio.connect()] and of [aio.subscribe_to_weather]. *)
Definition is_connect (e : event) : bool :=
  match e with EConnect => true | _ => false end.

Definition is_subscribe (e : event) : bool :=
  match e with ESubscribeWeather _ _ => true | _ => false end.

Definition is_broker_call (e : event) : bool :=
  match e with
  | EConnect | EReconnect | ESubscribeWeather _ _ | ELoop _ | EPublish _ _ => true
  | _ => false
  end.

(** [paced c]: whatever [c] is started from, its trace is [throttled]. *)
Definition paced {A} (c : M A) : Prop :=
  forall g, throttled (trace_of (c g)) = true.

(** Not an [aio.loop], not an [aio.publish]. *)
Definition no_call (e : event) : Prop := is_call e = false.

(** The sector of an integer heading, in integer arithmetic: sectors are
    45 degrees wide and the first is centred on north. *)
Definition sector_of (n : Z) : Z := ((2 * n + 45) mod 720) / 90.


(** The values handed to [aio.publish] for one feed, in order. *)
Definition publishes_to (feed : string) (t : list event) : list pyval :=
  omap (fun e => match e with
                 | EPublish f v => if String.eqb f feed then Some v else None
                 | _ => None
                 end) t.





(** A line of output. *)
Definition is_print (e : event) : Prop :=
  match e with EPrint _ => True | _ => False end.

(** The keys lines 173-180 read from the observation. *)
Definition REQUIRED_KEYS : list string :=
  ["conditionCode"; "temperature"; "humidity"; "windSpeed"; "windDirection";
   "windGust"; "metadata"; "daylight"].

(** The weather payloads among the call-backs all decode. *)
Definition decodes (rt : runtime) (cb : callback) : Prop :=
  match cb with
  | OnMessage feed_id payload =>
      String.eqb feed_id "weather" = true ->
      exists v, json_loads rt payload = inr v
  | OnSubscribe _ _ => True
  end.

(** * Properties *)

(** ** Rounding *)

Section Rounding.








End Rounding.

(** The literals of the script and the floats they denote. *)
Example float_literals :
  round53 22.5 = (45 # 2)%Q /\ round53 360 = 360%Q /\ round53 100 = 100%Q
  /\ round53 0.6214 = (1399268404224013 # 2251799813685248)%Q
  /\ fl (5 * round53 0.6214) = Fin (6996342021120065 # 2251799813685248)
  /\ fl (round53 0.07 * 100) = Fin (7881299347898369 # 1125899906842624).
Proof. vm_compute. repeat split; reflexivity. Qed.

(** ** Compass labels *)

Section Compass.
Local Open Scope Q_scope.





End Compass.



Example wind_direction_None : wind_direction VNone = inr (VStr "--").
Proof. reflexivity. Qed.
Example wind_direction_0 : wind_direction (VInt 0) = inr (VStr "N").
Proof. vm_compute. reflexivity. Qed.
Example wind_direction_90 : wind_direction (VInt 90) = inr (VStr "E").
Proof. vm_compute. reflexivity. Qed.
Example wind_direction_360 : wind_direction (VInt 360) = inr (VStr "N").
Proof. vm_compute. reflexivity. Qed.
Example wind_direction_negative : wind_direction (VFloat (-45)) = inr (VStr "NW").
Proof. vm_compute. reflexivity. Qed.




(** ** Python equality *)

Lemma assoc_app_miss (k : string) (p s : list (string * pyval)) :
  existsb (String.eqb k) (map fst p) = false -> assoc k (p ++ s) = assoc k s.
Proof.
  induction p as [|kv p IH]; simpl; [reflexivity |].
  intros H. apply orb_false_iff in H as [Hk Hp].
  rewrite Hk. apply IH, Hp.
Qed.

Lemma has_key_app_r (k : string) (p s : list (string * pyval)) :
  has_key k s = true -> has_key k (p ++ s) = true.
Proof.
  unfold has_key. rewrite map_app, existsb_app. intros ->. apply orb_true_r.
Qed.

Lemma forallb_has_key (p d : list (string * pyval)) :
  forallb (fun kv => has_key (fst kv) (p ++ d)) d = true.
Proof.
  revert p. induction d as [|kv d IH]; intros p; simpl; [reflexivity |].
  apply andb_true_iff. split.
  - apply has_key_app_r. unfold has_key. simpl.
    rewrite String.eqb_refl. reflexivity.
  - specialize (IH (p ++ [kv])). rewrite <- app_assoc in IH. exact IH.
Qed.

Lemma list_eq_refl (eq : pyval -> pyval -> bool) (l : list pyval) :
  Forall (fun v => eq v v = true) l -> list_eq eq l l = true.
Proof.
  induction 1 as [|v l Hv _ IH]; simpl; [reflexivity |].
  rewrite Hv, IH. reflexivity.
Qed.

(** [dict_sub] of a dict against itself, started anywhere inside it with
    the keys of the part already walked in [seen]. *)
Lemma dict_sub_refl (eq : pyval -> pyval -> bool)
    (s p : list (string * pyval)) (seen : list string) :
  (forall k, existsb (String.eqb k) seen = existsb (String.eqb k) (map fst p)) ->
  Forall (fun kv => eq (snd kv) (snd kv) = true) s ->
  dict_sub eq (p ++ s) seen s = true.
Proof.
  intros Hseen Hs. revert p seen Hseen.
  induction Hs as [|kv s Hkv _ IH]; intros p seen Hseen; simpl; [reflexivity |].
  apply andb_true_iff. split.
  - destruct (existsb (String.eqb (fst kv)) seen) eqn:Hk; [reflexivity |].
    rewrite assoc_app_miss by (rewrite <- Hseen; exact Hk).
    simpl. rewrite String.eqb_refl. exact Hkv.
  - specialize (IH (p ++ [kv]) (fst kv :: seen)).
    rewrite <- app_assoc in IH. apply IH.
    intros k. rewrite map_app, existsb_app. simpl.
    rewrite Hseen, orb_false_r. apply orb_comm.
Qed.

(** [x == x] for every decoded value. *)
Lemma py_eq_refl (v : pyval) : py_eq v v = true.
Proof.
  induction v as [| b | n | x | sg | s | l IH | d IH] using pyval_nested_ind;
    simpl.
  - reflexivity.
  - apply Qeq_bool_iff. reflexivity.
  - apply Qeq_bool_iff. reflexivity.
  - apply Qeq_bool_iff. reflexivity.
  - destruct sg; reflexivity.
  - apply String.eqb_refl.
  - apply list_eq_refl, IH.
  - apply andb_true_iff. split.
    + apply (dict_sub_refl py_eq d [] []); [reflexivity | exact IH].
    + apply (forallb_has_key [] d).
Qed.

Lemma py_ne_same (v : pyval) : py_ne v v = false.
Proof. unfold py_ne. rewrite py_eq_refl. reflexivity. Qed.

(** Nothing but [None] equals [None]: the first observation always counts
    as a change. *)
Lemma py_ne_None (v : pyval) : py_truthy v = true -> py_ne v VNone = true.
Proof. destruct v; simpl; try reflexivity; discriminate. Qed.

(** ** Running code in [M] *)

Lemma bind_run {A B} (c : M A) (k : A -> M B) (g : globals) :
  (c ≫= k) g =
  match c g with
  | (Ret a, g1, t1) => let '(r, g2, t2) := k a g1 in (r, g2, t1 ++ t2)
  | (Raise e, g1, t1) => (Raise e, g1, t1)
  | (Reload, g1, t1) => (Reload, g1, t1)
  end.
Proof. reflexivity. Qed.

Lemma bind_Ret {A B} (c : M A) (k : A -> M B) g a g1 t1 :
  c g = (Ret a, g1, t1) ->
  (c ≫= k) g = (result (k a g1), final (k a g1), t1 ++ trace_of (k a g1)).
Proof.
  intros H. rewrite bind_run, H. destruct (k a g1) as [[r g2] t2]. reflexivity.
Qed.

(** Once the reload is reached, the rest of the code is not run. *)
Lemma bind_Reload {A B} (c : M A) (k : A -> M B) g g1 t1 :
  c g = (Reload, g1, t1) -> (c ≫= k) g = (Reload, g1, t1).
Proof. intros H. rewrite bind_run, H. reflexivity. Qed.

Lemma bind_Raise {A B} (c : M A) (k : A -> M B) g e g1 t1 :
  c g = (Raise e, g1, t1) -> (c ≫= k) g = (Raise e, g1, t1).
Proof. intros H. rewrite bind_run, H. reflexivity. Qed.

(** No handler catches the reload. *)
Lemma try_except_Reload {A} catches (body : M A) handler g g1 t1 :
  body g = (Reload, g1, t1) -> try_except catches body handler g = (Reload, g1, t1).
Proof. intros H. unfold try_except. rewrite H. reflexivity. Qed.

Lemma publishes_app (t1 t2 : list event) :
  publishes (t1 ++ t2) = publishes t1 ++ publishes t2.
Proof. apply omap_app. Qed.

Lemma reloads_app (t1 t2 : list event) :
  reloads (t1 ++ t2) = (reloads t1 + reloads t2)%nat.
Proof. unfold reloads. rewrite filter_app, length_app. reflexivity. Qed.

(** ** Rules for [mild] and [calm] *)

Lemma mild_bind {A B} (c : M A) (k : A -> M B) :
  mild c -> (forall a, mild (k a)) -> mild (c ≫= k).
Proof.
  intros Hc Hk g. rewrite bind_run.
  specialize (Hc g). destruct (c g) as [[[a|e|] g1] t1];
    unfold trace_of, final, result in *; simpl in *;
    [| destruct Hc as (? & ? & ? & ? & ?); repeat split; auto; discriminate
     | destruct Hc as (? & ? & ? & ? & ?); congruence].
  specialize (Hk a g1). destruct (k a g1) as [[r g2] t2];
    unfold trace_of, final, result in *; simpl in *.
  destruct Hc as (P1 & R1 & O1 & _ & C1), Hk as (P2 & R2 & O2 & N2 & C2).
  rewrite publishes_app, reloads_app, P1, P2, R1, R2.
  repeat split; try congruence; lia.
Qed.

Lemma calm_bind {A B} (c : M A) (k : A -> M B) :
  calm c -> (forall a, calm (k a)) -> calm (c ≫= k).
Proof.
  intros [Hc Wc] Hk. split.
  - apply mild_bind; [exact Hc | intros a; apply Hk].
  - intros g. rewrite bind_run. specialize (Wc g).
    destruct (c g) as [[[a|e|] g1] t1]; unfold final in *; simpl in *;
      try exact Wc.
    destruct (Hk a) as [_ Wk]. specialize (Wk g1).
    destruct (k a g1) as [[r g2] t2]; unfold final in *; simpl in *.
    congruence.
Qed.

Lemma mild_try_except {A} catches (body : M A) handler :
  mild body -> (forall e, mild (handler e)) ->
  mild (try_except catches body handler).
Proof.
  intros Hb Hh g. unfold try_except.
  specialize (Hb g). destruct (body g) as [[[a|e|] g1] t1];
    unfold trace_of, final, result in *; simpl in *;
    [exact Hb | | exact Hb].
  destruct (catches e); [| exact Hb].
  specialize (Hh e g1). destruct (handler e g1) as [[r g2] t2];
    unfold trace_of, final, result in *; simpl in *.
  destruct Hb as (P1 & R1 & O1 & _ & C1), Hh as (P2 & R2 & O2 & N2 & C2).
  rewrite publishes_app, reloads_app, P1, P2, R1, R2.
  repeat split; try congruence; lia.
Qed.

Lemma calm_try_except {A} catches (body : M A) handler :
  calm body -> (forall e, calm (handler e)) ->
  calm (try_except catches body handler).
Proof.
  intros [Hb Wb] Hh. split.
  - apply mild_try_except; [exact Hb | intros e; apply Hh].
  - intros g. unfold try_except. specialize (Wb g).
    destruct (body g) as [[[a|e|] g1] t1]; unfold final in *; simpl in *;
      try exact Wb.
    destruct (catches e); [| exact Wb].
    destruct (Hh e) as [_ Wh]. specialize (Wh g1).
    destruct (handler e g1) as [[r g2] t2]; unfold final in *; simpl in *.
    congruence.
Qed.

Lemma calm_mild {A} (c : M A) : calm c -> mild c.
Proof. intros [H _]. exact H. Qed.

Lemma calm_ret {A} (a : A) : calm (ret a).
Proof. repeat split; simpl; auto; discriminate. Qed.

Lemma calm_mret {A} (a : A) : calm (mret a).
Proof. apply calm_ret. Qed.

Lemma calm_raise {A} (e : exn) : calm (@raise A e).
Proof. repeat split; simpl; auto; discriminate. Qed.

Lemma calm_lift {A} (r : exn + A) : calm (lift r).
Proof. destruct r; [apply calm_raise | apply calm_ret]. Qed.

Lemma calm_print text : calm (print text).
Proof. repeat split; simpl; auto; discriminate. Qed.

Lemma calm_time_sleep s : calm (time_sleep s).
Proof. repeat split; simpl; auto; discriminate. Qed.

Lemma calm_set_pixel c : calm (set_pixel c).
Proof. repeat split; simpl; auto; discriminate. Qed.

Lemma calm_set_led b : calm (set_led b).
Proof. repeat split; simpl; auto; discriminate. Qed.

Lemma calm_get_weather_data : calm get_weather_data.
Proof. repeat split; simpl; auto; discriminate. Qed.

Lemma calm_get_weather_data_old : calm get_weather_data_old.
Proof. repeat split; simpl; auto; discriminate. Qed.

Lemma calm_next_call : calm next_call.
Proof. repeat split; simpl; auto; discriminate. Qed.

Lemma mild_set_weather_data v : mild (set_weather_data v).
Proof. repeat split; simpl; auto; discriminate. Qed.

Create HintDb calm discriminated.
#[local] Hint Resolve calm_ret calm_mret calm_raise calm_lift calm_print
  calm_time_sleep calm_set_pixel calm_set_led calm_get_weather_data
  calm_get_weather_data_old calm_next_call : calm.

(** Walks down a block of statements. *)
Ltac calm_steps :=
  repeat first
    [ apply calm_bind; [| intros ?]
    | apply calm_try_except; [| intros ?]
    | solve [auto with calm]
    | match goal with |- calm (if ?b then _ else _) => destruct b end
    | match goal with |- calm (match ?x with _ => _ end) => destruct x end ].

(** ** The pieces of the script *)

Section Pieces.
Context (rt : runtime) (w : world).

Lemma calm_answer n : calm (answer w n).
Proof. unfold answer. destruct (reply w n); auto with calm. Qed.

Lemma calm_time_monotonic : calm (time_monotonic w).
Proof. unfold time_monotonic. calm_steps. Qed.

Lemma calm_blink n : calm (blink n).
Proof. induction n; simpl; calm_steps. Qed.

Lemma calm_busy delay : calm (busy delay).
Proof. unfold busy. calm_steps. apply calm_blink. Qed.

Lemma blink_run n g : blink n g = (Ret tt, g, blink_trace n).
Proof.
  induction n as [|n IH]; simpl; [reflexivity |].
  rewrite !bind_run. simpl. rewrite !bind_run. simpl.
  rewrite !bind_run. simpl. rewrite !bind_run. simpl. rewrite IH. reflexivity.
Qed.

(** [busy] always returns, and its trace is [busy_trace]. *)
Lemma busy_run delay g : busy delay g = (Ret tt, g, busy_trace delay).
Proof.
  unfold busy. rewrite bind_run. simpl. rewrite blink_run. reflexivity.
Qed.

Lemma calm_weather_field key : calm (weather_field key).
Proof. unfold weather_field. calm_steps. Qed.

Lemma calm_icon_and_description desc daylight :
  calm (icon_and_description rt desc daylight).
Proof. unfold icon_and_description. calm_steps. Qed.

Lemma calm_derive : calm (derive rt).
Proof.
  unfold derive.
  repeat first
    [ apply calm_bind; [| intros ?]
    | apply calm_weather_field
    | apply calm_icon_and_description
    | solve [auto with calm] ].
Qed.

(** *** [message] and the call-backs *)

Lemma mild_message feed_id payload : mild (message rt feed_id payload).
Proof.
  unfold message. destruct (String.eqb feed_id "weather").
  - apply mild_bind; [apply calm_mild, calm_lift |].
    intros v. apply mild_set_weather_data.
  - apply calm_mild, calm_ret.
Qed.

Lemma mild_run_callbacks cbs : mild (run_callbacks rt cbs).
Proof.
  induction cbs as [|cb cbs IH]; simpl.
  - apply calm_mild, calm_ret.
  - apply mild_bind; [| intros _; exact IH].
    destruct cb; simpl; [apply mild_message |].
    apply calm_mild. unfold subscribe. auto with calm.
Qed.

(** Call-backs that bring no weather message leave [weather_data] alone. *)
Lemma calm_run_callbacks cbs :
  existsb is_weather cbs = false -> calm (run_callbacks rt cbs).
Proof.
  induction cbs as [|cb cbs IH]; simpl; intros H; [apply calm_ret |].
  apply orb_false_iff in H as [Hcb Hrest].
  apply calm_bind; [| intros _; apply IH, Hrest].
  destruct cb; simpl in *.
  - unfold message. rewrite Hcb. apply calm_ret.
  - unfold subscribe. auto with calm.
Qed.

Lemma mild_aio_loop timeout : mild (aio_loop rt w timeout).
Proof.
  unfold aio_loop.
  apply mild_bind; [apply calm_mild; repeat split; simpl; auto; discriminate |].
  intros _. apply mild_bind; [apply calm_mild, calm_next_call |].
  intros n. apply mild_bind; [apply mild_run_callbacks |].
  intros _. apply calm_mild, calm_answer.
Qed.

Lemma calm_aio_connect : calm (aio_connect w).
Proof.
  unfold aio_connect.
  apply calm_bind; [repeat split; simpl; auto; discriminate |].
  intros _. apply calm_bind; [apply calm_next_call | apply calm_answer].
Qed.
End Pieces.

(** ** [publish_to_aio] *)

(** Unfolds the statements of [M] down to triples. *)
Ltac run_M :=
  cbv beta iota zeta delta
    [mbind M_bind bind mret M_ret ret raise emit lift try_except
     any_Exception next_call time_sleep print set_pixel set_led
     supervisor_reload answer aio_publish aio_reconnect aio_connect
     get_weather_data get_weather_data_old set_weather_data
     set_weather_data_old time_monotonic negb].

Section Publishing.
Context (rt : runtime) (w : world).

Lemma publish_to_aio_None feed g :
  publish_to_aio w VNone feed g
  = (Ret tt, g,
     [EPrint [Lit "  FAILED to publish '"; Val VNone;
              Lit "' to AIO '"; Val (VStr feed); Lit "'"]]).
Proof. reflexivity. Qed.

Lemma publish_to_aio_ok value feed g :
  is_none value = false ->
  reply w (calls g) = None ->
  publish_to_aio w value feed g
  = (Ret tt, bump 1 g, publish_ok_trace feed value).
Proof.
  intros Hv Hr. unfold publish_to_aio. rewrite Hv. run_M.
  rewrite Hr. reflexivity.
Qed.

Lemma publish_to_aio_recovered value feed g e :
  is_none value = false ->
  reply w (calls g) = Some e ->
  reply w (S (calls g)) = None ->
  publish_to_aio w value feed g
  = (Ret tt, bump 2 g, publish_recovered_trace feed value e).
Proof.
  intros Hv Hr Hr'. unfold publish_to_aio. rewrite Hv. run_M.
  rewrite Hr. simpl. rewrite Hr'. reflexivity.
Qed.

Lemma publish_to_aio_fatal value feed g e e' :
  is_none value = false ->
  reply w (calls g) = Some e ->
  reply w (S (calls g)) = Some e' ->
  publish_to_aio w value feed g
  = (Reload, bump 2 g, publish_fatal_trace feed value e e').
Proof.
  intros Hv Hr Hr'. unfold publish_to_aio. rewrite Hv. run_M.
  rewrite Hr. simpl. rewrite Hr'. reflexivity.
Qed.

(** The four ways a call can go; there is no fifth, and none of them
    leaves an exception behind. *)
Lemma publish_to_aio_cases value feed g :
  (value = VNone
   /\ publish_to_aio w value feed g
      = (Ret tt, g,
         [EPrint [Lit "  FAILED to publish '"; Val VNone;
                  Lit "' to AIO '"; Val (VStr feed); Lit "'"]]))
  \/ (is_none value = false
      /\ reply w (calls g) = None
      /\ publish_to_aio w value feed g
         = (Ret tt, bump 1 g, publish_ok_trace feed value))
  \/ (exists e,
        is_none value = false
        /\ reply w (calls g) = Some e /\ reply w (S (calls g)) = None
        /\ publish_to_aio w value feed g
           = (Ret tt, bump 2 g, publish_recovered_trace feed value e))
  \/ (exists e e',
        is_none value = false
        /\ reply w (calls g) = Some e /\ reply w (S (calls g)) = Some e'
        /\ publish_to_aio w value feed g
           = (Reload, bump 2 g, publish_fatal_trace feed value e e')).
Proof.
  destruct (is_none value) eqn:Hv.
  - left. destruct value; try discriminate. split; reflexivity.
  - right. destruct (reply w (calls g)) as [e|] eqn:Hr.
    + right. destruct (reply w (S (calls g))) as [e'|] eqn:Hr'.
      * right. exists e, e'. repeat split; auto.
        apply publish_to_aio_fatal; assumption.
      * left. exists e. repeat split; auto.
        apply publish_to_aio_recovered; assumption.
    + left. repeat split; auto. apply publish_to_aio_ok; assumption.
Qed.

Lemma restart_trace_reloads t : restart_trace t -> reloads t = 1%nat.
Proof.
  intros (pre & msg & e & -> & Hpre).
  rewrite reloads_app, Hpre. reflexivity.
Qed.

Lemma restart_trace_app t1 t2 :
  reloads t1 = 0%nat -> restart_trace t2 -> restart_trace (t1 ++ t2).
Proof.
  intros H1 (pre & msg & e & -> & Hpre).
  exists (t1 ++ pre), msg, e. split.
  - rewrite <- app_assoc. reflexivity.
  - rewrite reloads_app, H1, Hpre. reflexivity.
Qed.

Lemma publish_fatal_restart feed value e e' :
  restart_trace (publish_fatal_trace feed value e e').
Proof.
  exists (publish_failed_trace feed value e),
    "  FAILED: publish aio.reconnect ", e'.
  split; reflexivity.
Qed.

Lemma present_single_None feed : present [(feed, VNone)] = [].
Proof. reflexivity. Qed.

Lemma present_single feed value :
  is_none value = false -> present [(feed, value)] = [(feed, value)].
Proof.
  intros H. unfold present. cbn. rewrite H. reflexivity.
Qed.

Lemma present_cons fv rest : present (fv :: rest) = present [fv] ++ present rest.
Proof.
  unfold present. rewrite (filter_app _ [fv] rest). reflexivity.
Qed.

(** What one call does, whichever way it goes. *)
Lemma publish_to_aio_summary value feed g :
  let x := publish_to_aio w value feed g in
  publishes (trace_of x) = present [(feed, value)]
  /\ weather_data (final x) = weather_data g
  /\ weather_data_old (final x) = weather_data_old g
  /\ (calls g <= calls (final x))%nat
  /\ ((result x = Ret tt /\ reloads (trace_of x) = 0%nat)
      \/ (result x = Reload /\ restart_trace (trace_of x))).
Proof.
  destruct (publish_to_aio_cases value feed g)
    as [[-> E] | [(Hv & _ & E) | [(e & Hv & _ & _ & E) | (e & e' & Hv & _ & _ & E)]]];
    cbv zeta; rewrite E; unfold trace_of, final, result; simpl.
  - repeat split; auto.
  - rewrite present_single by exact Hv. repeat split; auto; lia.
  - rewrite present_single by exact Hv. repeat split; auto; lia.
  - rewrite present_single by exact Hv. repeat split; auto; try lia.
    right. split; [reflexivity | apply publish_fatal_restart].
Qed.

(** *** A list of calls *)

Lemma send_summary l g :
  let x := send w l g in
  publishes (trace_of x) `prefix_of` present l
  /\ weather_data (final x) = weather_data g
  /\ weather_data_old (final x) = weather_data_old g
  /\ (calls g <= calls (final x))%nat
  /\ ((result x = Ret tt /\ reloads (trace_of x) = 0%nat
       /\ publishes (trace_of x) = present l)
      \/ (result x = Reload /\ restart_trace (trace_of x))).
Proof.
  revert g. induction l as [|[feed value] l IH]; intros g; cbv zeta.
  - simpl. unfold trace_of, final, result; simpl.
    repeat split; auto.
  - simpl send. rewrite bind_run.
    pose proof (publish_to_aio_summary value feed g) as Hp. cbv zeta in Hp.
    destruct (publish_to_aio w value feed g) as [[r1 g1] t1].
    unfold trace_of, final, result in Hp; simpl in Hp.
    destruct Hp as (P1 & W1 & O1 & C1 & [[-> R1] | [-> T1]]).
    + specialize (IH g1). cbv zeta in IH.
      destruct (send w l g1) as [[r2 g2] t2].
      unfold trace_of, final, result in *; simpl in *.
      destruct IH as (P2 & W2 & O2 & C2 & D2).
      rewrite (present_cons (feed, value) l), publishes_app, P1.
      repeat split; try congruence; try lia.
      * apply prefix_app, P2.
      * destruct D2 as [(-> & R2 & E2) | [-> T2]].
        -- left. rewrite reloads_app, R1, R2, E2. auto.
        -- right. split; [reflexivity |]. apply restart_trace_app; assumption.
    + unfold trace_of, final, result; simpl.
      rewrite (present_cons (feed, value) l), P1. repeat split; auto.
      exists (present l). reflexivity.
Qed.

(** When no reconnect fails straight after a failed publish, every call of
    the list is made and the list is worked off to its end. *)
Lemma send_completes l g :
  no_double_failure w -> result (send w l g) = Ret tt.
Proof.
  intros Hw. revert g. induction l as [|[feed value] l IH]; intros g.
  - reflexivity.
  - simpl send. rewrite bind_run.
    destruct (publish_to_aio_cases value feed g)
      as [[-> E] | [(Hv & _ & E) | [(e & Hv & _ & _ & E) | (e & e' & Hv & H1 & H2 & E)]]];
      simpl fst in E; simpl snd in E; rewrite E.
    + specialize (IH g). destruct (send w l g) as [[r2 g2] t2]. exact IH.
    + specialize (IH (bump 1 g)).
      destruct (send w l (bump 1 g)) as [[r2 g2] t2]. exact IH.
    + specialize (IH (bump 2 g)).
      destruct (send w l (bump 2 g)) as [[r2 g2] t2]. exact IH.
    + destruct (Hw (calls g)); congruence.
Qed.

(** Once the first part of a list is worked off, the rest is run from
    where it ended. *)
Lemma send_app l1 l2 g g1 t1 :
  send w l1 g = (Ret tt, g1, t1) ->
  send w (l1 ++ l2) g
  = (result (send w l2 g1), final (send w l2 g1),
     t1 ++ trace_of (send w l2 g1)).
Proof.
  revert g t1. induction l1 as [|[feed value] l1 IH]; intros g t1 H.
  - injection H as <- <-. cbn [app].
    destruct (send w l2 g) as [[r g2] t2]. reflexivity.
  - cbn [app send fst snd] in *. rewrite bind_run in *.
    destruct (publish_to_aio w value feed g) as [[[[]|e|] ga] ta];
      try discriminate.
    destruct (send w l1 ga) as [[r gb] tb] eqn:Hs.
    injection H as -> <- <-.
    rewrite (IH ga tb Hs).
    unfold result, final, trace_of. cbn [fst snd].
    rewrite app_assoc. reflexivity.
Qed.

(** The list goes on with the call for its first pair. *)
Lemma send_starts feed value rest g :
  exists t',
    trace_of (send w ((feed, value) :: rest) g)
    = trace_of (publish_to_aio w value feed g) ++ t'.
Proof.
  cbn [send fst snd]. rewrite bind_run.
  destruct (publish_to_aio w value feed g) as [[[[]|e|] g1] t1].
  - destruct (send w rest g1) as [[r g2] t2]. exists t2. reflexivity.
  - exists []. unfold trace_of. cbn [snd]. rewrite app_nil_r. reflexivity.
  - exists []. unfold trace_of. cbn [snd]. rewrite app_nil_r. reflexivity.
Qed.
End Publishing.

(** *** The values sent to one feed *)

Lemma publishes_to_app feed (t1 t2 : list event) :
  publishes_to feed (t1 ++ t2) = publishes_to feed t1 ++ publishes_to feed t2.
Proof. apply omap_app. Qed.

(** A trace whose publishes all go to other feeds sends [feed] nothing. *)
Lemma publishes_to_other feed (t : list event) :
  feed ∉ map fst (publishes t) -> publishes_to feed t = [].
Proof.
  induction t as [|ev t IH]; [reflexivity |].
  destruct ev; cbn; try exact IH.
  intros Hnot. apply not_elem_of_cons in Hnot as [Hne Hrest].
  destruct (String.eqb feed0 feed) eqn:E;
    [apply String.eqb_eq in E; congruence | apply IH, Hrest].
Qed.

Lemma publishes_to_none feed (t : list event) :
  publishes t = [] -> publishes_to feed t = [].
Proof.
  intros H. apply publishes_to_other. rewrite H. apply not_elem_of_nil.
Qed.

Lemma publishes_to_recovered feed value e :
  publishes_to feed (publish_recovered_trace feed value e) = [value].
Proof. cbn. rewrite String.eqb_refl. reflexivity. Qed.

(** The feeds of a first part of [present l] are among those of [l]. *)
Lemma prefix_present_feeds (sent l : list (string * pyval)) feed :
  sent `prefix_of` present l -> feed ∉ map fst l -> feed ∉ map fst sent.
Proof.
  intros [k Hk] Hnot Hin. apply Hnot.
  apply list_elem_of_fmap in Hin as (fv & -> & Hfv).
  apply list_elem_of_fmap. exists fv. split; [reflexivity |].
  assert (fv ∈ present l) as H by (rewrite Hk; apply elem_of_app; auto).
  unfold present in H. apply list_elem_of_filter in H as [_ H]. exact H.
Qed.

Lemma NoDup_FEEDS : NoDup FEEDS.
Proof. refine (bool_decide_unpack _ _). vm_compute. exact I. Qed.

(** ** The loop body *)

Section Loop.
Context (rt : runtime) (w : world).

(** *** [fetch] *)

Lemma fetch_ok g g1 t1 :
  aio_loop rt w 10 g = (Ret tt, g1, t1) ->
  fetch rt w g
  = (Ret tt, g1, [EPixel YELLOW; ESleep 2.5] ++ t1 ++ [EPixel GREEN]).
Proof.
  intros H. unfold fetch. run_M. rewrite H. reflexivity.
Qed.

Lemma fetch_recovered g e g1 t1 :
  aio_loop rt w 10 g = (Raise e, g1, t1) ->
  reply w (calls g1) = None ->
  fetch rt w g
  = (Ret tt, bump 1 g1,
     [EPixel YELLOW; ESleep 2.5] ++ t1
     ++ fetch_failed_trace e ++ [EPixel GREEN]).
Proof.
  intros H Hr. unfold fetch. run_M. rewrite H. simpl. rewrite Hr.
  reflexivity.
Qed.

Lemma fetch_fatal g e e' g1 t1 :
  aio_loop rt w 10 g = (Raise e, g1, t1) ->
  reply w (calls g1) = Some e' ->
  fetch rt w g
  = (Reload, bump 1 g1,
     [EPixel YELLOW; ESleep 2.5] ++ t1 ++ fetch_fatal_trace e e').
Proof.
  intros H Hr. unfold fetch. run_M. rewrite H. simpl. rewrite Hr.
  reflexivity.
Qed.

(** [fetch] never lets an exception out, publishes nothing and leaves
    [weather_data_old] alone. *)
Lemma fetch_summary g :
  let x := fetch rt w g in
  publishes (trace_of x) = []
  /\ weather_data_old (final x) = weather_data_old g
  /\ (calls g <= calls (final x))%nat
  /\ ((result x = Ret tt /\ reloads (trace_of x) = 0%nat)
      \/ (result x = Reload /\ restart_trace (trace_of x))).
Proof.
  cbv zeta.
  pose proof (mild_aio_loop rt w 10 g) as (P & R & O & N & C).
  destruct (aio_loop rt w 10 g) as [[[[]|e|] g1] t1] eqn:H;
    unfold trace_of, final, result in *; simpl in *; [| | congruence].
  - rewrite (fetch_ok _ _ _ H). cbn [fst snd].
    rewrite !publishes_app, P, !reloads_app, R. repeat split; auto.
  - destruct (reply w (calls g1)) as [e'|] eqn:Hr.
    + rewrite (fetch_fatal _ _ _ _ _ H Hr). cbn [fst snd].
      rewrite !publishes_app, P. repeat split; auto; [simpl; lia |].
      right. split; [reflexivity |].
      rewrite app_assoc. apply restart_trace_app.
      * rewrite reloads_app, R. reflexivity.
      * exists (fetch_failed_trace e), "  FAILED: loop aio.reconnect ", e'.
        split; reflexivity.
    + rewrite (fetch_recovered _ _ _ _ H Hr). cbn [fst snd].
      rewrite !publishes_app, P, !reloads_app, R.
      repeat split; auto; simpl; lia.
Qed.

(** *** [process] *)

Lemma process_waiting g :
  py_truthy (weather_data g) = false ->
  process rt w g
  = (Ret tt, g,
     EPrint [Lit "  ... waiting for weather observations from ";
             Val (VStr W_TOPIC_DESC)] :: busy_trace 10).
Proof.
  intros H. unfold process. run_M. rewrite H. run_M.
  rewrite busy_run. reflexivity.
Qed.

Lemma process_unchanged g :
  py_truthy (weather_data g) = true ->
  py_ne (weather_data g) (weather_data_old g) = false ->
  process rt w g = (Ret tt, g, busy_trace 120).
Proof.
  intros H Hne. unfold process. run_M. rewrite H. run_M.
  rewrite Hne. run_M. rewrite busy_run. reflexivity.
Qed.

Lemma process_changed g :
  py_truthy (weather_data g) = true ->
  py_ne (weather_data g) (weather_data_old g) = true ->
  process rt w g
  = match republish rt w g with
    | (Ret _, g1, t1) => (Ret tt, g1, t1 ++ busy_trace 120)
    | other => other
    end.
Proof.
  intros H Hne. unfold process. run_M. rewrite H. run_M.
  rewrite Hne. run_M.
  destruct (republish rt w g) as [[[[]|e|] g1] t1];
    [rewrite busy_run | |]; reflexivity.
Qed.

(** *** [republish] *)

Lemma bind_ext {A B} (c : M A) (k k' : A -> M B) g :
  (forall a g1, k a g1 = k' a g1) -> (c ≫= k) g = (c ≫= k') g.
Proof.
  intros H. rewrite !bind_run. destruct (c g) as [[[a|e|] g1] t1]; auto.
  rewrite H. reflexivity.
Qed.

Lemma bind_ret_unit (c : M unit) g : (c ≫= fun _ => ret tt) g = c g.
Proof.
  rewrite bind_run. destruct (c g) as [[[[]|e|] g1] t1]; auto.
  simpl. rewrite app_nil_r. reflexivity.
Qed.

Lemma triple_eta {A} (x : outcome A * globals * list event) :
  (let '(r, g2, t2) := x in (r, g2, [] ++ t2)) = x.
Proof. destruct x as [[? ?] ?]. reflexivity. Qed.

(** Lines 205-212 are [publish_to_aio] run over [plan], with the clock
    read first. *)
Lemma publish_all_send d g :
  publish_all rt w d g
  = send w (plan rt (monotonic w (calls g)) d) (bump 1 g).
Proof.
  unfold publish_all. rewrite bind_run.
  change (time_monotonic w g) with (Ret (monotonic w (calls g)), bump 1 g, @nil event).
  cbv iota beta. rewrite triple_eta.
  unfold plan. cbn [send fst snd].
  repeat (apply bind_ext; intros ? ?).
  symmetry. apply bind_ret_unit.
Qed.

Lemma republish_raise g e g1 td :
  derive rt g = (Raise e, g1, td) ->
  republish rt w g = (Raise e, g1, td).
Proof. intros H. unfold republish. rewrite bind_run, H. reflexivity. Qed.

(** Once the observation is decoded, [republish] either runs to its last
    line, having made every call of [plan] that has a value and having
    copied [weather_data] to [weather_data_old], or it ends in a fatal
    handler after a first part of those calls. *)
Lemma republish_summary g d g1 td :
  derive rt g = (Ret d, g1, td) ->
  let x := republish rt w g in
  let todo := present (plan rt (monotonic w (calls g1)) d) in
  publishes (trace_of x) `prefix_of` todo
  /\ (calls g <= calls (final x))%nat
  /\ ((result x = Ret tt
       /\ publishes (trace_of x) = todo
       /\ reloads (trace_of x) = 0%nat
       /\ weather_data (final x) = weather_data g
       /\ weather_data_old (final x) = weather_data g)
      \/ (result x = Reload /\ restart_trace (trace_of x))).
Proof.
  intros Hd. cbv zeta.
  destruct calm_derive with (rt := rt) as [Hm Hw].
  specialize (Hm g) as (Pd & Rd & Od & _ & Cd). specialize (Hw g).
  rewrite Hd in Pd, Rd, Od, Cd, Hw.
  unfold trace_of, final, result in Pd, Rd, Od, Cd, Hw. simpl in Pd, Rd, Od, Cd, Hw.
  unfold republish. rewrite bind_run, Hd, bind_run, publish_all_send.
  pose proof (send_summary w (plan rt (monotonic w (calls g1)) d) (bump 1 g1))
    as Hs. cbv zeta in Hs.
  destruct (send w (plan rt (monotonic w (calls g1)) d) (bump 1 g1))
    as [[r2 g2] t2].
  unfold trace_of, final, result in Hs; simpl in Hs.
  destruct Hs as (P2 & W2 & O2 & C2 & [(-> & R2 & E2) | [-> T2]]).
  - run_M. unfold trace_of, final, result; cbn [fst snd].
    rewrite app_nil_r, publishes_app, Pd, reloads_app, Rd, R2. cbn [app].
    split_and!; try assumption; try (simpl; lia).
    left. split_and!; try assumption; try reflexivity; simpl; congruence.
  - unfold trace_of, final, result; cbn [fst snd].
    rewrite publishes_app, Pd. cbn [app].
    split_and!; try assumption; try (simpl; lia).
    right. split; [reflexivity |]. apply restart_trace_app; assumption.
Qed.
End Loop.

(** ** Every reload comes out of a fatal handler *)

Section Orderly.
Context (rt : runtime) (w : world).

Lemma orderly_bind {A B} (c : M A) (k : A -> M B) :
  orderly c -> (forall a, orderly (k a)) -> orderly (c ≫= k).
Proof.
  intros Hc Hk g. rewrite bind_run. specialize (Hc g).
  destruct (c g) as [[[a|e|] g1] t1];
    unfold well_ended, result, trace_of in *; cbn [fst snd] in *;
    [| exact Hc | exact Hc].
  specialize (Hk a g1). destruct (k a g1) as [[r g2] t2].
  unfold well_ended, result, trace_of in *; cbn [fst snd] in *.
  destruct r.
  - rewrite reloads_app, Hc, Hk. reflexivity.
  - rewrite reloads_app, Hc, Hk. reflexivity.
  - apply restart_trace_app; assumption.
Qed.

Lemma orderly_try_except {A} catches (body : M A) handler :
  orderly body -> (forall e, orderly (handler e)) ->
  orderly (try_except catches body handler).
Proof.
  intros Hb Hh g. unfold try_except. specialize (Hb g).
  destruct (body g) as [[[a|e|] g1] t1]; [exact Hb | | exact Hb].
  destruct (catches e); [| exact Hb].
  specialize (Hh e g1). destruct (handler e g1) as [[r g2] t2].
  unfold well_ended, result, trace_of in *; cbn [fst snd] in *.
  destruct r.
  - rewrite reloads_app, Hb, Hh. reflexivity.
  - rewrite reloads_app, Hb, Hh. reflexivity.
  - apply restart_trace_app; assumption.
Qed.

Lemma orderly_mild {A} (c : M A) : mild c -> orderly c.
Proof.
  intros H g. destruct (H g) as (_ & R & _ & N & _).
  unfold well_ended. destruct (result (c g)); [exact R | exact R | congruence].
Qed.

Lemma orderly_calm {A} (c : M A) : calm c -> orderly c.
Proof. intros [H _]. apply orderly_mild, H. Qed.

(** The last five statements of each fatal handler. *)
Lemma orderly_fatal_handler {A} (msg : string) (e : exn) :
  orderly (set_pixel RED;;
           print [Lit msg; Err e];;
           print [Lit "      MCU will soft reset in 60 seconds."];;
           time_sleep 60;;
           @supervisor_reload A).
Proof. intros g. exists [], msg, e. split; reflexivity. Qed.

Lemma orderly_set_weather_data_old v : orderly (set_weather_data_old v).
Proof. intros g. reflexivity. Qed.

Lemma orderly_publish_to_aio value feed : orderly (publish_to_aio w value feed).
Proof.
  intros g. pose proof (publish_to_aio_summary w value feed g) as H.
  cbv zeta in H. destruct H as (_ & _ & _ & _ & [[E R] | [E T]]);
    unfold well_ended; rewrite E; assumption.
Qed.

Lemma orderly_publish_all d : orderly (publish_all rt w d).
Proof.
  unfold publish_all.
  apply orderly_bind; [apply orderly_calm, calm_time_monotonic | intros now].
  repeat (apply orderly_bind; [apply orderly_publish_to_aio | intros _]).
  apply orderly_publish_to_aio.
Qed.

Lemma orderly_republish : orderly (republish rt w).
Proof.
  unfold republish.
  apply orderly_bind; [apply orderly_calm, calm_derive | intros d].
  apply orderly_bind; [apply orderly_publish_all | intros _].
  apply orderly_bind; [apply orderly_calm, calm_get_weather_data | intros v].
  apply orderly_set_weather_data_old.
Qed.

Lemma orderly_fetch : orderly (fetch rt w).
Proof.
  intros g. pose proof (fetch_summary rt w g) as H. cbv zeta in H.
  destruct H as (_ & _ & _ & [[E R] | [E T]]);
    unfold well_ended; rewrite E; assumption.
Qed.

Lemma orderly_process : orderly (process rt w).
Proof.
  unfold process.
  apply orderly_bind; [apply orderly_calm, calm_get_weather_data | intros wd].
  destruct (py_truthy wd).
  - apply orderly_bind; [apply orderly_calm, calm_get_weather_data | intros wd'].
    apply orderly_bind; [apply orderly_calm, calm_get_weather_data_old | intros old].
    apply orderly_bind; [| intros _; apply orderly_calm, calm_busy].
    destruct (py_ne wd' old); [apply orderly_republish | apply orderly_calm, calm_ret].
  - apply orderly_bind; [apply orderly_calm, calm_print | intros _].
    apply orderly_calm, calm_busy.
Qed.

Lemma orderly_cycle : orderly (cycle rt w).
Proof.
  unfold cycle. apply orderly_bind; [apply orderly_fetch | intros _].
  apply orderly_process.
Qed.

Lemma orderly_cycles n : orderly (cycles rt w n).
Proof.
  induction n as [|n IH]; simpl.
  - apply orderly_calm, calm_ret.
  - apply orderly_bind; [apply orderly_cycle | intros _; exact IH].
Qed.

Lemma calm_wifi_radio_connect ssid password :
  calm (wifi_radio_connect w ssid password).
Proof.
  unfold wifi_radio_connect.
  apply calm_bind; [repeat split; simpl; auto; discriminate |].
  intros _. apply calm_bind; [apply calm_next_call | apply calm_answer].
Qed.

Lemma mild_aio_subscribe_to_weather key mode :
  mild (aio_subscribe_to_weather rt w key mode).
Proof.
  unfold aio_subscribe_to_weather.
  apply mild_bind; [apply calm_mild; repeat split; simpl; auto; discriminate |].
  intros _. apply mild_bind; [apply calm_mild, calm_next_call |].
  intros n. apply mild_bind; [apply mild_run_callbacks |].
  intros _. apply calm_mild, calm_answer.
Qed.

Lemma orderly_startup : orderly (startup rt w).
Proof.
  unfold startup.
  apply orderly_bind; [apply orderly_calm, calm_set_led | intros _].
  apply orderly_bind; [apply orderly_calm, calm_set_pixel | intros _].
  apply orderly_bind; [| intros _].
  { apply orderly_try_except.
    - apply orderly_calm.
      repeat first [ apply calm_wifi_radio_connect
                   | solve [auto with calm]
                   | apply calm_bind; [| intros ?] ].
    - intros e. apply orderly_fatal_handler. }
  apply orderly_bind; [apply orderly_calm, calm_print | intros _].
  apply orderly_bind; [apply orderly_calm, calm_aio_connect | intros _].
  apply orderly_bind; [| intros connected].
  { apply orderly_calm. unfold mqtt_is_connected.
    repeat first [ apply calm_answer
                 | solve [auto with calm]
                 | apply calm_bind; [| intros ?] ]. }
  apply orderly_bind; [apply orderly_calm, calm_print | intros _].
  apply orderly_bind;
    [apply orderly_mild, mild_aio_subscribe_to_weather | intros _].
  apply orderly_bind;
    [apply orderly_mild, mild_set_weather_data | intros _].
  apply orderly_set_weather_data_old.
Qed.

Lemma orderly_script n : orderly (script rt w n).
Proof.
  unfold script.
  apply orderly_bind; [apply orderly_startup | intros _; apply orderly_cycles].
Qed.
End Orderly.

(** ** What [derive] computes *)

Section Derive.
Context (rt : runtime).

Lemma bind_Ret_inv {A B} (c : M A) (k : A -> M B) g b g2 t :
  (c ≫= k) g = (Ret b, g2, t) ->
  exists a g1 t1 t2,
    c g = (Ret a, g1, t1) /\ k a g1 = (Ret b, g2, t2) /\ t = t1 ++ t2.
Proof.
  rewrite bind_run. destruct (c g) as [[[a|e|] g1] t1]; try discriminate.
  destruct (k a g1) as [[r g2'] t2] eqn:Hk. intros [= -> -> <-].
  exists a, g1, t1, t2. auto.
Qed.

Lemma lift_Ret_inv {A} (r : exn + A) g a g1 t :
  lift r g = (Ret a, g1, t) -> r = inr a /\ g1 = g /\ t = [].
Proof. destruct r; simpl; intros [= <- <- <-]; auto. Qed.

Lemma weather_field_Ret_inv key g v g1 t :
  weather_field key g = (Ret v, g1, t) ->
  py_getitem (weather_data g) key = inr v /\ g1 = g /\ t = [].
Proof.
  unfold weather_field. rewrite bind_run. simpl.
  destruct (lift (py_getitem (weather_data g) key) g) as [[r g'] t'] eqn:H.
  intros [= -> -> <-]. apply lift_Ret_inv in H as (? & ? & ?). subst. auto.
Qed.

Lemma derive_values g d g1 td :
  derive rt g = (Ret d, g1, td) -> derived_from rt (weather_data g) d.
Proof.
  unfold derive. intros H.
  repeat match goal with
  | H : (weather_field _ ≫= _) _ = (Ret _, _, _) |- _ =>
      let E := fresh "E" in
      apply bind_Ret_inv in H as (? & ? & ? & ? & E & H & ?);
      apply weather_field_Ret_inv in E as (E & ? & ?); subst
  | H : (lift _ ≫= _) _ = (Ret _, _, _) |- _ =>
      let E := fresh "E" in
      apply bind_Ret_inv in H as (? & ? & ? & ? & E & H & ?);
      apply lift_Ret_inv in E as (E & ? & ?); subst
  | H : (print _ ≫= _) _ = (Ret _, _, _) |- _ =>
      apply bind_Ret_inv in H as (? & ? & ? & ? & _ & H & ?)
  | H : (icon_and_description _ _ _ ≫= _) _ = (Ret _, _, _) |- _ =>
      apply bind_Ret_inv in H as (? & ? & ? & ? & _ & H & ?)
  end.
  injection H as <- _ _. unfold derived_from. simpl.
  split_and!; eauto.
Qed.

Lemma of_float_not_None f : is_none (of_float f) = false.
Proof. destruct f; reflexivity. Qed.

Lemma py_mul_not_None a k v : py_mul a k = inr v -> is_none v = false.
Proof.
  unfold py_mul.
  destruct a, k; cbn [to_float]; intros H; try discriminate;
    try (injection H as <-; first [reflexivity | apply of_float_not_None]).
  - destruct (fl (inject_Z n)); [| discriminate].
    injection H as <-. apply of_float_not_None.
Qed.

Lemma wind_direction_not_None h v :
  wind_direction h = inr v -> is_none v = false.
Proof.
  unfold wind_direction. destruct (is_none h); [intros [= <-]; reflexivity |].
  destruct (to_float h _) as [e | f]; [discriminate |].
  destruct (add_22_5 f); [| discriminate].
  destruct (py_list_getitem _ _); [| discriminate].
  intros [= <-]. reflexivity.
Qed.

(** Of the eight values only the condition code and the temperature can
    be [None]. *)
Lemma present_plan wd now d :
  derived_from rt wd d ->
  is_none (weatherkit_desc d) = false ->
  is_none (weatherkit_temp d) = false ->
  present (plan rt now d) = plan rt now d.
Proof.
  intros (_ & _ & (h & _ & Hh) & (s & _ & Hs) & (x & _ & Hx)
          & (u & _ & Hu) & _) Hd Ht.
  apply py_mul_not_None in Hh, Hs, Hu. apply wind_direction_not_None in Hx.
  unfold present, plan. cbn [filter list_filter snd negb is_none].
  cbn. rewrite Hd, Ht, Hh, Hs, Hx, Hu. reflexivity.
Qed.

Lemma plan_feeds now d : map fst (plan rt now d) = FEEDS.
Proof. reflexivity. Qed.
End Derive.

(** ** Turns of the loop in which no new observation arrives *)

Section Quiet.
Context (rt : runtime) (w : world).

Lemma aio_loop_run timeout g :
  aio_loop rt w timeout g =
  match run_callbacks rt (callbacks w (calls g)) (bump 1 g) with
  | (Ret _, g1, t1) =>
      match reply w (calls g) with
      | None => (Ret tt, g1, ELoop timeout :: t1)
      | Some e => (Raise e, g1, ELoop timeout :: t1)
      end
  | (Raise e, g1, t1) => (Raise e, g1, ELoop timeout :: t1)
  | (Reload, g1, t1) => (Reload, g1, ELoop timeout :: t1)
  end.
Proof.
  unfold aio_loop. run_M. unfold bump. cbn [Nat.add].
  destruct (run_callbacks rt _ _) as [[[[]|e|] g1] t1]; try reflexivity.
  destruct (reply w (calls g)); cbn; rewrite app_nil_r; reflexivity.
Qed.

Lemma aio_loop_quiet timeout g :
  existsb is_weather (callbacks w (calls g)) = false ->
  weather_data (final (aio_loop rt w timeout g)) = weather_data g.
Proof.
  intros H. rewrite aio_loop_run.
  destruct (calm_run_callbacks rt _ H) as [_ Hc]. specialize (Hc (bump 1 g)).
  destruct (run_callbacks rt _ _) as [[[[]|e|] g1] t1];
    unfold final in *; cbn [fst snd] in *; try exact Hc.
  destruct (reply w (calls g)); exact Hc.
Qed.

Lemma fetch_quiet g :
  existsb is_weather (callbacks w (calls g)) = false ->
  weather_data (final (fetch rt w g)) = weather_data g.
Proof.
  intros H. pose proof (aio_loop_quiet 10 g H) as Hq.
  pose proof (mild_aio_loop rt w 10 g) as (_ & _ & _ & N & _).
  destruct (aio_loop rt w 10 g) as [[[[]|e|] g1] t1] eqn:E;
    unfold final, result in *; cbn [fst snd] in *; [| | congruence].
  - rewrite (fetch_ok _ _ _ _ _ E). exact Hq.
  - destruct (reply w (calls g1)) as [e'|] eqn:Hr.
    + rewrite (fetch_fatal _ _ _ _ _ _ _ E Hr). exact Hq.
    + rewrite (fetch_recovered _ _ _ _ _ _ E Hr). exact Hq.
Qed.

Lemma cycle_run g :
  cycle rt w g =
  match fetch rt w g with
  | (Ret _, g1, tf) =>
      (result (process rt w g1), final (process rt w g1),
       tf ++ trace_of (process rt w g1))
  | other => other
  end.
Proof.
  unfold cycle. rewrite bind_run.
  destruct (fetch rt w g) as [[[[]|e|] g1] tf]; try reflexivity.
  destruct (process rt w g1) as [[r g2] t2]. reflexivity.
Qed.

Lemma run_callbacks_nothing_new cbs g v0 :
  Forall (brings_nothing_new rt v0) cbs ->
  py_ne (weather_data g) v0 = false ->
  py_ne (weather_data (final (run_callbacks rt cbs g))) v0 = false.
Proof.
  intros Hcbs. revert g.
  induction Hcbs as [|cb cbs Hcb _ IH]; intros g Hg; [exact Hg |].
  simpl run_callbacks. rewrite bind_run.
  assert (match run_callback rt cb g with
          | (_, g1, _) => py_ne (weather_data g1) v0 = false
          end) as Hstep.
  { destruct cb as [feed_id payload | topic qos]; simpl in *.
    - unfold message. destruct (String.eqb feed_id "weather"); [| exact Hg].
      rewrite bind_run.
      destruct (json_loads rt payload) as [e | v] eqn:Hv; simpl; [exact Hg |].
      apply (Hcb eq_refl v eq_refl).
    - exact Hg. }
  destruct (run_callback rt cb g) as [[[[]|e|] g1] t1];
    unfold final in *; cbn [fst snd] in *; try exact Hstep.
  specialize (IH g1 Hstep).
  destruct (run_callbacks rt cbs g1) as [[r g2] t2]. exact IH.
Qed.

Lemma fetch_nothing_new g v0 :
  Forall (brings_nothing_new rt v0) (callbacks w (calls g)) ->
  py_ne (weather_data g) v0 = false ->
  py_ne (weather_data (final (fetch rt w g))) v0 = false.
Proof.
  intros Hcbs Hg.
  assert (py_ne (weather_data (final (aio_loop rt w 10 g))) v0 = false) as Hq.
  { rewrite aio_loop_run.
    pose proof (run_callbacks_nothing_new _ (bump 1 g) v0 Hcbs Hg) as H.
    destruct (run_callbacks rt _ _) as [[[[]|e|] g1] t1];
      unfold final in *; cbn [fst snd] in *; try exact H.
    destruct (reply w (calls g)); exact H. }
  pose proof (mild_aio_loop rt w 10 g) as (_ & _ & _ & N & _).
  destruct (aio_loop rt w 10 g) as [[[[]|e|] g1] t1] eqn:E;
    unfold final, result in *; cbn [fst snd] in *; [| | congruence].
  - rewrite (fetch_ok _ _ _ _ _ E). exact Hq.
  - destruct (reply w (calls g1)) as [e'|] eqn:Hr.
    + rewrite (fetch_fatal _ _ _ _ _ _ _ E Hr). exact Hq.
    + rewrite (fetch_recovered _ _ _ _ _ _ E Hr). exact Hq.
Qed.

(** A turn that starts with [weather_data] equal to the committed [v0] and
    receives nothing that differs from [v0] publishes nothing and ends the
    same way. *)
Lemma cycle_nothing_new g v0 :
  weather_data_old g = v0 ->
  py_ne (weather_data g) v0 = false ->
  Forall (brings_nothing_new rt v0) (callbacks w (calls g)) ->
  let x := cycle rt w g in
  publishes (trace_of x) = []
  /\ weather_data_old (final x) = v0
  /\ py_ne (weather_data (final x)) v0 = false
  /\ (calls g <= calls (final x))%nat.
Proof.
  intros Hold Hne Hq. cbv zeta. rewrite cycle_run.
  pose proof (fetch_summary rt w g) as (P & O & C & _). cbv zeta in P, O, C.
  pose proof (fetch_nothing_new g v0 Hq Hne) as W.
  destruct (fetch rt w g) as [[[[]|e|] g1] tf];
    unfold trace_of, final, result in *; cbn [fst snd] in *;
    [| rewrite O; auto | rewrite O; auto].
  assert (py_ne (weather_data g1) (weather_data_old g1) = false) as Hne1
    by (rewrite O, Hold; exact W).
  destruct (py_truthy (weather_data g1)) eqn:Ht.
  - rewrite (process_unchanged rt w g1 Ht Hne1). cbn [fst snd].
    rewrite publishes_app, P, O.
    assert (publishes (busy_trace 120) = []) as -> by reflexivity.
    auto.
  - rewrite (process_waiting rt w g1 Ht). cbn [fst snd].
    rewrite publishes_app, P, O. split; [reflexivity | auto].
Qed.

Lemma cycles_nothing_new n g v0 :
  weather_data_old g = v0 ->
  py_ne (weather_data g) v0 = false ->
  nothing_new_from rt w (calls g) v0 ->
  publishes (trace_of (cycles rt w n g)) = [].
Proof.
  revert g. induction n as [|n IH]; intros g Hold Hne Hq; [reflexivity |].
  simpl cycles. rewrite bind_run.
  pose proof (cycle_nothing_new g v0 Hold Hne (Hq (calls g) (le_n _)))
    as (P & Hold' & Hne' & C).
  cbv zeta in P, Hold', Hne', C.
  destruct (cycle rt w g) as [[[[]|e|] g1] t1];
    unfold trace_of, final in *; cbn [fst snd] in *; try exact P.
  specialize (IH g1 Hold' Hne').
  destruct (cycles rt w n g1) as [[r g2] t2]. cbn [fst snd] in *.
  rewrite publishes_app, P, IH; [reflexivity |].
  intros m Hm. apply Hq. lia.
Qed.

(** No weather message at all is a case of nothing new. *)
Lemma quiet_nothing_new n v0 : quiet_from w n -> nothing_new_from rt w n v0.
Proof.
  intros Hq m Hm. specialize (Hq m Hm).
  induction (callbacks w m) as [|cb cbs IH]; [constructor |].
  simpl in Hq. apply orb_false_iff in Hq as [Hcb Hrest].
  constructor; [| apply IH, Hrest].
  destruct cb; simpl in *; [| exact I]. intros Hw. congruence.
Qed.
End Quiet.

(** ** What [weather_data_old] can hold *)

Lemma py_truthy_number (v : pyval) (x : Q) :
  as_number v = Some x -> py_truthy v = negb (Qeq_bool x 0).
Proof.
  destruct v as [| [|] | n | y | | | |]; simpl; intros [= <-]; try reflexivity.
  unfold Qeq_bool. simpl. rewrite Z.mul_1_r. reflexivity.
Qed.

Lemma Qeq_bool_zero (x y : Q) :
  Qeq_bool x y = true -> Qeq_bool x 0 = Qeq_bool y 0.
Proof.
  intros H. apply Qeq_bool_iff in H. apply eq_true_iff_eq.
  rewrite !Qeq_bool_iff, H. reflexivity.
Qed.

Lemma py_eq_number_truthy (a b : pyval) (x : Q) :
  as_number a = Some x ->
  match as_number b with Some y => Qeq_bool x y | None => false end = true ->
  py_truthy a = py_truthy b.
Proof.
  intros Ha H. destruct (as_number b) as [y|] eqn:Hb; [| discriminate].
  rewrite (py_truthy_number a x Ha), (py_truthy_number b y Hb).
  f_equal. apply Qeq_bool_zero, H.
Qed.

(** Equal values are both true or both false. *)
Lemma py_eq_truthy (a b : pyval) :
  py_eq a b = true -> py_truthy a = py_truthy b.
Proof.
  destruct a as [| ba | na | xa | ga | sa | la | da].
  - destruct b; simpl; intros H; try discriminate; reflexivity.
  - intros H. eapply py_eq_number_truthy; [reflexivity | exact H].
  - intros H. eapply py_eq_number_truthy; [reflexivity | exact H].
  - intros H. eapply py_eq_number_truthy; [reflexivity | exact H].
  - destruct b; simpl; intros H; try discriminate; reflexivity.
  - destruct b; simpl; intros H; try discriminate.
    apply String.eqb_eq in H. subst. reflexivity.
  - destruct b as [| | | | | | lb |]; simpl; intros H; try discriminate.
    destruct la, lb; simpl in *; try discriminate; reflexivity.
  - destruct b as [| | | | | | | db]; simpl; intros H; try discriminate.
    apply andb_true_iff in H as [Hsub Hkeys].
    destruct da as [|kv da], db as [|kv' db]; simpl in *;
      try discriminate; reflexivity.
Qed.

Section Committed.
Context (rt : runtime) (w : world).

(** A value that is not [None] and equals what was committed is true. *)
Lemma set_and_equal_truthy (g : globals) :
  committed_ok g ->
  is_none (weather_data g) = false ->
  py_ne (weather_data g) (weather_data_old g) = false ->
  py_truthy (weather_data g) = true.
Proof.
  intros [Hold | Hold] Hset Hne; unfold py_ne in Hne;
    apply negb_false_iff in Hne.
  - rewrite Hold in Hne. destruct (weather_data g); discriminate.
  - rewrite (py_eq_truthy _ _ Hne). exact Hold.
Qed.

Lemma republish_old (g : globals) :
  py_truthy (weather_data g) = true ->
  let x := republish rt w g in
  weather_data_old (final x) = weather_data_old g
  \/ py_truthy (weather_data_old (final x)) = true.
Proof.
  intros Ht. cbv zeta. unfold republish. rewrite bind_run.
  destruct (calm_derive rt) as [Hm Hw].
  specialize (Hm g) as (_ & _ & Od & _). specialize (Hw g).
  destruct (derive rt g) as [[[d|e|] g1] td];
    unfold final in *; cbn [fst snd] in *; [| left; exact Od | left; exact Od].
  rewrite bind_run, publish_all_send.
  pose proof (send_summary w (plan rt (monotonic w (calls g1)) d) (bump 1 g1))
    as (_ & W2 & O2 & _). cbv zeta in W2, O2.
  destruct (send w _ _) as [[[[]|e|] g2] t2];
    unfold final in *; cbn [fst snd] in *.
  - right. run_M. cbn. rewrite W2. cbn. rewrite Hw. exact Ht.
  - left. rewrite O2. exact Od.
  - left. rewrite O2. exact Od.
Qed.

Lemma process_committed_ok (g : globals) :
  committed_ok g -> committed_ok (final (process rt w g)).
Proof.
  intros Hok.
  destruct (py_truthy (weather_data g)) eqn:Ht.
  - destruct (py_ne (weather_data g) (weather_data_old g)) eqn:Hne.
    + rewrite (process_changed rt w g Ht Hne).
      pose proof (republish_old g Ht) as H. cbv zeta in H.
      destruct (republish rt w g) as [[[[]|e|] g1] t1];
        unfold final in *; cbn [fst snd] in *;
        (destruct H as [H | H]; [unfold committed_ok; rewrite H; exact Hok
                                | right; exact H]).
    + rewrite (process_unchanged rt w g Ht Hne). exact Hok.
  - rewrite (process_waiting rt w g Ht). exact Hok.
Qed.

Lemma cycles_committed_ok (n : nat) (g : globals) :
  committed_ok g -> committed_ok (final (cycles rt w n g)).
Proof.
  revert g. induction n as [|n IH]; intros g Hok; [exact Hok |].
  simpl cycles. rewrite bind_run.
  assert (committed_ok (final (cycle rt w g))) as Hc.
  { rewrite cycle_run.
    pose proof (fetch_summary rt w g) as (_ & O & _). cbv zeta in O.
    destruct (fetch rt w g) as [[[[]|e|] g1] tf];
      unfold final in *; cbn [fst snd] in *;
      [| unfold committed_ok; cbn; rewrite O; exact Hok
       | unfold committed_ok; cbn; rewrite O; exact Hok].
    apply process_committed_ok. unfold committed_ok. rewrite O. exact Hok. }
  destruct (cycle rt w g) as [[[[]|e|] g1] t1];
    unfold final in *; cbn [fst snd] in *; try exact Hc.
  specialize (IH g1 Hc). destruct (cycles rt w n g1) as [[r g2] t2]. exact IH.
Qed.

(** The states the script reaches after start-up keep in
    [weather_data_old] either [None] or a true value. *)
Lemma script_committed_ok (n : nat) (g : globals) :
  result (script rt w n g) = Ret tt ->
  committed_ok (final (script rt w n g)).
Proof.
  unfold script. rewrite bind_run.
  destruct (startup rt w g) as [[[[]|e|] g1] t1] eqn:Hs;
    unfold result, final; cbn [fst snd]; try discriminate.
  intros _.
  assert (weather_data_old g1 = VNone) as Hnone.
  { unfold startup in Hs.
    repeat match goal with
    | H : (_ ≫= _) _ = (Ret _, _, _) |- _ =>
        apply bind_Ret_inv in H as (? & ? & ? & ? & _ & H & _)
    end.
    injection Hs as <- _. reflexivity. }
  pose proof (cycles_committed_ok n g1 (or_introl Hnone)) as H.
  destruct (cycles rt w n g1) as [[r g2] t2]. exact H.
Qed.
End Committed.

(** * The loop's guarantees *)

(** C1.  When [aio.loop] raises and the [aio.connect()] of the handler
    succeeds, the service step ends normally without any reload, the turn
    goes on with the change detection, and [weather_data] is what it was
    when [aio.loop] raised (what it was at the start of the turn when the
    call delivered no weather message); [weather_data_old] is untouched. *)
Theorem service_failure_recovered (rt : runtime) (w : world)
    (g : globals) (e : exn) (g1 : globals) (t1 : list event) :
  aio_loop rt w 10 g = (Raise e, g1, t1) ->
  reply w (calls g1) = None ->
  let x := fetch rt w g in
  result x = Ret tt
  /\ reloads (trace_of x) = 0%nat
  /\ weather_data (final x) = weather_data g1
  /\ weather_data_old (final x) = weather_data_old g
  /\ (existsb is_weather (callbacks w (calls g)) = false ->
      weather_data (final x) = weather_data g)
  /\ cycle rt w g
     = (result (process rt w (final x)), final (process rt w (final x)),
        trace_of x ++ trace_of (process rt w (final x))).
Proof.
  intros Hloop Hr. cbv zeta.
  pose proof (mild_aio_loop rt w 10 g) as (_ & R & O & _ & _).
  rewrite Hloop in R, O. unfold trace_of, final in R, O. cbn [fst snd] in R, O.
  split_and!.
  - rewrite (fetch_recovered _ _ _ _ _ _ Hloop Hr). reflexivity.
  - rewrite (fetch_recovered _ _ _ _ _ _ Hloop Hr). unfold trace_of. cbn [snd].
    rewrite !reloads_app, R. reflexivity.
  - rewrite (fetch_recovered _ _ _ _ _ _ Hloop Hr). reflexivity.
  - rewrite (fetch_recovered _ _ _ _ _ _ Hloop Hr). exact O.
  - intros Hq. apply fetch_quiet, Hq.
  - rewrite cycle_run, (fetch_recovered _ _ _ _ _ _ Hloop Hr). reflexivity.
Qed.

(** C2.  When [aio.loop] raises and the [aio.connect()] of the handler
    raises too, the turn ends in the reload: one reload, reached through
    the fatal handler, and not one call of [aio.publish]. *)
Theorem service_and_reconnect_failure (rt : runtime) (w : world)
    (g : globals) (e e' : exn) (g1 : globals) (t1 : list event) :
  aio_loop rt w 10 g = (Raise e, g1, t1) ->
  reply w (calls g1) = Some e' ->
  let x := cycle rt w g in
  result x = Reload
  /\ reloads (trace_of x) = 1%nat
  /\ publishes (trace_of x) = []
  /\ trace_of x = [EPixel YELLOW; ESleep 2.5] ++ t1 ++ fetch_fatal_trace e e'.
Proof.
  intros Hloop Hr. cbv zeta.
  pose proof (mild_aio_loop rt w 10 g) as (P & R & _).
  rewrite Hloop in P, R. unfold trace_of in P, R. cbn [snd] in P, R.
  rewrite cycle_run, (fetch_fatal _ _ _ _ _ _ _ Hloop Hr).
  unfold result, trace_of. cbn [fst snd].
  split_and!; try reflexivity.
  - rewrite !reloads_app, R. reflexivity.
  - rewrite !publishes_app, P. reflexivity.
Qed.

(** C3.  When, after the service step, [weather_data] is set (not [None])
    and [weather_data != weather_data_old] is false, the turn makes no call
    of [aio.publish] and ends with [busy(120)].  [committed_ok] holds in
    every state the script reaches ([script_committed_ok]). *)
Theorem unchanged_observation_skips_publish (rt : runtime) (w : world)
    (g g1 : globals) (tf : list event) :
  committed_ok g ->
  fetch rt w g = (Ret tt, g1, tf) ->
  is_none (weather_data g1) = false ->
  py_ne (weather_data g1) (weather_data_old g1) = false ->
  cycle rt w g = (Ret tt, g1, tf ++ busy_trace 120)
  /\ publishes (tf ++ busy_trace 120) = [].
Proof.
  intros Hok Hf Hset Hne.
  pose proof (fetch_summary rt w g) as (P & O & _). cbv zeta in P, O.
  rewrite Hf in P, O. unfold trace_of, final in P, O. cbn [fst snd] in P, O.
  assert (py_truthy (weather_data g1) = true) as Ht.
  { apply set_and_equal_truthy; [| exact Hset | exact Hne].
    unfold committed_ok. rewrite O. exact Hok. }
  split.
  - rewrite cycle_run, Hf, (process_unchanged rt w g1 Ht Hne). reflexivity.
  - rewrite publishes_app, P. reflexivity.
Qed.

(** C4.  In the sequence of lines 205-212, when the values before one
    have gone through and its own [aio.publish] raises while the
    [aio.reconnect()] that follows returns, the turn goes on from there
    with the rest of the sequence: its next statement is [publish_to_aio]
    for the next value, or, after the last value, the commit of line 214.
    In the whole turn the value is handed to [aio.publish] once. *)
Theorem publish_failure_not_retried (rt : runtime) (w : world) (g : globals)
    (d : derived) (g0 : globals) (td : list event)
    (before after : list (string * pyval)) (feed : string) (value : pyval)
    (g1 : globals) (t1 : list event) (e : exn) :
  py_truthy (weather_data g) = true ->
  py_ne (weather_data g) (weather_data_old g) = true ->
  derive rt g = (Ret d, g0, td) ->
  plan rt (monotonic w (calls g0)) d = before ++ (feed, value) :: after ->
  send w before (bump 1 g0) = (Ret tt, g1, t1) ->
  is_none value = false ->
  reply w (calls g1) = Some e ->
  reply w (S (calls g1)) = None ->
  let x := process rt w g in
  let rest := send w after (bump 2 g1) in
  (exists t_end,
     trace_of x
     = td ++ t1 ++ publish_recovered_trace feed value e
       ++ trace_of rest ++ t_end
     /\ publishes t_end = [])
  /\ match after with
     | (next_feed, next_value) :: _ =>
         exists t',
           trace_of rest
           = trace_of (publish_to_aio w next_value next_feed (bump 2 g1)) ++ t'
     | [] => result x = Ret tt /\ weather_data_old (final x) = weather_data g
     end
  /\ publishes_to feed (trace_of x) = [value].
Proof.
  intros Ht Hne Hd Hplan Hbefore Hv Hr Hr'. cbv zeta.
  set (rest := send w after (bump 2 g1)).
  destruct (calm_derive rt) as [Hm Hwd].
  specialize (Hm g) as (Pd & _). specialize (Hwd g).
  rewrite Hd in Pd, Hwd. unfold trace_of, final in Pd, Hwd.
  cbn [fst snd] in Pd, Hwd.
  pose proof (send_summary w before (bump 1 g0)) as Hb. cbv zeta in Hb.
  rewrite Hbefore in Hb. unfold trace_of, final, result in Hb.
  cbn [fst snd] in Hb. destruct Hb as (Pb & Wb & _).
  pose proof (send_summary w after (bump 2 g1)) as Ha. cbv zeta in Ha.
  fold rest in Ha. destruct Ha as (Pa & Wa & _ & _ & Da).
  assert (publish_all rt w d g0
          = (result rest, final rest,
             t1 ++ publish_recovered_trace feed value e ++ trace_of rest))
    as Hall.
  { rewrite publish_all_send, Hplan, (send_app w _ _ _ _ _ Hbefore).
    cbn [send fst snd].
    rewrite (bind_Ret _ _ _ _ _ _
               (publish_to_aio_recovered w value feed g1 e Hv Hr Hr')).
    reflexivity. }
  pose proof NoDup_FEEDS as Hnd.
  rewrite <- (plan_feeds rt (monotonic w (calls g0)) d), Hplan, map_app in Hnd.
  cbn [map fst] in Hnd.
  apply NoDup_app in Hnd as (_ & Hsep & Hnd').
  apply NoDup_cons in Hnd' as [Hafter _].
  assert (feed ∉ map fst before) as Hbefore'
    by (intros Hin; apply (Hsep _ Hin); left).
  assert (publishes_to feed t1 = []) as S1
    by (apply publishes_to_other; eapply prefix_present_feeds; eassumption).
  assert (publishes_to feed (trace_of rest) = []) as S2
    by (apply publishes_to_other; eapply prefix_present_feeds; eassumption).
  assert (publishes_to feed td = []) as S0
    by (apply publishes_to_none, Pd).
  assert (exists t_end,
            publishes t_end = []
            /\ process rt w g
               = (match result rest with
                  | Ret _ => Ret tt
                  | other => other
                  end,
                  match result rest with
                  | Ret _ => mkGlobals (weather_data (final rest))
                               (weather_data (final rest)) (calls (final rest))
                  | _ => final rest
                  end,
                  td ++ t1 ++ publish_recovered_trace feed value e
                  ++ trace_of rest ++ t_end)) as (t_end & Pend & Hx).
  { rewrite (process_changed rt w g Ht Hne).
    unfold republish. rewrite bind_run, Hd, bind_run, Hall.
    destruct Da as [(Er & _) | (Er & _)]; rewrite Er.
    - exists (busy_trace 120). split; [reflexivity |].
      run_M. cbn [app]. rewrite !app_nil_r, <- !app_assoc. reflexivity.
    - exists []. split; [reflexivity |].
      cbn [app]. rewrite !app_nil_r. reflexivity. }
  rewrite Hx. split_and!.
  - exists t_end. split; [reflexivity | exact Pend].
  - destruct after as [|[next_feed next_value] after'].
    + unfold rest. cbn [send]. unfold result, final, ret. cbn [fst snd].
      split; [reflexivity |]. cbn [weather_data_old weather_data bump].
      rewrite Wb. cbn [weather_data bump]. exact Hwd.
    + apply send_starts.
  - unfold trace_of at 1. cbn [snd].
    rewrite !publishes_to_app, S0, S1, S2, publishes_to_recovered.
    rewrite (publishes_to_none feed t_end Pend). reflexivity.
Qed.

(** C5.  With the value [None], [publish_to_aio] prints its failure line,
    makes no call into the environment and returns normally. *)
Theorem publish_to_aio_absent_value (w : world) (feed : string) (g : globals) :
  publish_to_aio w VNone feed g
  = (Ret tt, g,
     [EPrint [Lit "  FAILED to publish '"; Val VNone;
              Lit "' to AIO '"; Val (VStr feed); Lit "'"]])
  /\ publishes (trace_of (publish_to_aio w VNone feed g)) = [].
Proof. split; reflexivity. Qed.

(** C6, as the code has it.  In a turn that publishes at all, the calls of
    [aio.publish] are, in this order and with nothing in between, a first
    part of those of [plan] that have a value: watchdog minutes, condition
    code, humidity, temperature, compass label, wind gusts, wind speed,
    daylight string, computed from the observation at hand.  A turn that
    reaches its end has made them all, which is all eight when condition
    code and temperature are not [None]; a turn cut short by the reload
    has made a first part of them. *)
Theorem publish_order (rt : runtime) (w : world)
    (g : globals) (r : outcome unit) (g' : globals) (t : list event) :
  cycle rt w g = (r, g', t) ->
  publishes t <> [] ->
  exists g1 tf d g2 td,
    fetch rt w g = (Ret tt, g1, tf)
    /\ derive rt g1 = (Ret d, g2, td)
    /\ derived_from rt (weather_data g1) d
    /\ let todo := plan rt (monotonic w (calls g2)) d in
       map fst todo = FEEDS
       /\ publishes t `prefix_of` present todo
       /\ (r = Ret tt -> publishes t = present todo)
       /\ (is_none (weatherkit_desc d) = false ->
           is_none (weatherkit_temp d) = false -> present todo = todo).
Proof.
  intros Hc Hp. rewrite cycle_run in Hc.
  pose proof (fetch_summary rt w g) as (Pf & _). cbv zeta in Pf.
  destruct (fetch rt w g) as [[[[]|e|] g1] tf];
    unfold trace_of in Pf; cbn [snd] in Pf;
    [| injection Hc as <- <- <-; congruence
     | injection Hc as <- <- <-; congruence].
  injection Hc as Hr Hg Ht.
  destruct (py_truthy (weather_data g1)) eqn:Htruthy.
  2:{ rewrite (process_waiting rt w g1 Htruthy) in Ht. cbn [trace_of snd] in Ht.
      subst t. rewrite publishes_app, Pf in Hp. exfalso. apply Hp. reflexivity. }
  destruct (py_ne (weather_data g1) (weather_data_old g1)) eqn:Hne.
  2:{ rewrite (process_unchanged rt w g1 Htruthy Hne) in Ht.
      cbn [trace_of snd] in Ht. subst t.
      rewrite publishes_app, Pf in Hp. exfalso. apply Hp. reflexivity. }
  rewrite (process_changed rt w g1 Htruthy Hne) in Hr, Ht.
  pose proof (calm_derive rt) as [Hm _].
  specialize (Hm g1) as (Pd & _).
  destruct (derive rt g1) as [[[d|e|] g2] td] eqn:Hd;
    unfold trace_of in Pd; cbn [snd] in Pd.
  - exists g1, tf, d, g2, td.
    pose proof (derive_values rt g1 d g2 td Hd) as Hfrom.
    pose proof (republish_summary rt w g1 d g2 td Hd) as (Ppre & _ & Hsum).
    cbv zeta in Ppre, Hsum. cbv zeta.
    split_and!; auto.
    + destruct (republish rt w g1) as [[[[]|e|] g3] t3];
        unfold trace_of in *; cbn [snd] in *; subst t;
        rewrite ?publishes_app, Pf; cbn [app]; try exact Ppre.
      assert (publishes (busy_trace 120) = []) as -> by reflexivity.
      rewrite app_nil_r. exact Ppre.
    + intros ->.
      destruct Hsum as [(Er & Ep & _) | (Er & _)].
      * destruct (republish rt w g1) as [[[[]|e|] g3] t3];
          unfold result, trace_of in *; cbn [fst snd] in *; try discriminate.
        subst t. rewrite !publishes_app, Pf, Ep.
        assert (publishes (busy_trace 120) = []) as -> by reflexivity.
        rewrite app_nil_r. reflexivity.
      * destruct (republish rt w g1) as [[[[]|e|] g3] t3];
          unfold result in *; cbn [fst snd] in *; discriminate.
    + intros Hdesc Htemp. eapply present_plan; eassumption.
  - rewrite (republish_raise rt w g1 e g2 td Hd) in Ht. cbn [trace_of snd] in Ht.
    subst t. rewrite publishes_app, Pf, Pd in Hp. exfalso. apply Hp. reflexivity.
  - pose proof (calm_derive rt) as [Hm _].
    specialize (Hm g1) as (_ & _ & _ & N & _). rewrite Hd in N.
    exfalso. apply N. reflexivity.
Qed.

(** C7, as the code has it.  When the table has no entry for the condition
    code, the look-up prints the [KeyError] and yields the icon ["99d"],
    by day and by night, with the description
    ["unknown description: <code>"]; no exception leaves it. *)
Theorem unknown_code_fallback (rt : runtime) (code daylight : pyval)
    (g : globals) :
  misses rt code ->
  icon_and_description rt code daylight g
  = (Ret ("99d", ("unknown description: " ++ py_str rt code)%string), g,
     [EPrint [Lit "  NO Description: "; Err (KeyError code)]]).
Proof.
  unfold misses. intros H. unfold icon_and_description. run_M.
  destruct (py_truthy daylight); rewrite H; reflexivity.
Qed.

(** C8, as the code has it.  A run that ends in the reload ends with the
    red pixel, the error line, the announcement, one [time.sleep(60)] and
    [supervisor.reload()]; that is the only reload of the run, and code
    placed after the script is not run. *)
Theorem fatal_restart_protocol (rt : runtime) (w : world) (n : nat)
    (g : globals) :
  result (script rt w n g) = Reload ->
  restart_trace (trace_of (script rt w n g))
  /\ reloads (trace_of (script rt w n g)) = 1%nat
  /\ forall (B : Type) (next : unit -> M B),
       result ((script rt w n ≫= next) g) = Reload
       /\ trace_of ((script rt w n ≫= next) g) = trace_of (script rt w n g).
Proof.
  intros H. pose proof (orderly_script rt w n g) as Ho.
  unfold well_ended in Ho. rewrite H in Ho.
  split_and!; [exact Ho | apply restart_trace_reloads, Ho |].
  intros B next. rewrite bind_run.
  destruct (script rt w n g) as [[r g1] t1].
  unfold result in H. cbn [fst] in H. subst r. split; reflexivity.
Qed.

(** C10.  A turn that finds a new observation, decodes it and is not cut
    short by the reload reaches line 214 and copies [weather_data] to
    [weather_data_old], whether or not calls of [aio.publish] failed on the
    way; it does reach line 214 when no reconnect fails.  From then on, as
    long as no observation arrives that differs from the one committed, no
    turn publishes anything. *)
Theorem commit_despite_failed_publish (rt : runtime) (w : world)
    (g : globals) (d : derived) (g1 : globals) (td : list event) :
  py_truthy (weather_data g) = true ->
  py_ne (weather_data g) (weather_data_old g) = true ->
  derive rt g = (Ret d, g1, td) ->
  let x := process rt w g in
  (result x = Reload
   \/ (result x = Ret tt
       /\ weather_data_old (final x) = weather_data g
       /\ weather_data (final x) = weather_data g))
  /\ (no_double_failure w -> result x = Ret tt)
  /\ (result x = Ret tt ->
      forall n, nothing_new_from rt w (calls (final x)) (weather_data g) ->
                publishes (trace_of (cycles rt w n (final x))) = []).
Proof.
  intros Ht Hne Hd. cbv zeta.
  rewrite (process_changed rt w g Ht Hne).
  pose proof (republish_summary rt w g d g1 td Hd) as (_ & _ & Hsum).
  cbv zeta in Hsum.
  assert (no_double_failure w -> result (republish rt w g) = Ret tt) as Hcomp.
  { intros Hw. unfold republish.
    rewrite bind_run, Hd, bind_run, publish_all_send.
    pose proof (send_completes w (plan rt (monotonic w (calls g1)) d)
                  (bump 1 g1) Hw) as Hs.
    destruct (send w _ _) as [[r2 g2] t2].
    unfold result in Hs. cbn [fst] in Hs. subst r2. reflexivity. }
  destruct (republish rt w g) as [[[[]|e|] g2] t2];
    unfold result, final, trace_of in *; cbn [fst snd] in *.
  - destruct Hsum as [(_ & _ & _ & Hw & Ho) | (Hx & _)]; [| discriminate].
    split_and!; [right; auto | auto |].
    intros _ n Hq.
    apply (cycles_nothing_new rt w n g2 (weather_data g)); [exact Ho | | exact Hq].
    rewrite Hw. apply py_ne_same.
  - destruct Hsum as [(Hx & _) | (Hx & _)]; discriminate.
  - split_and!; [left; reflexivity | intros Hw; apply Hcomp, Hw | discriminate].
Qed.

(** * The guarantees on concrete runs *)

(** The broker fails at the first call ([aio.loop]); the [aio.connect()]
    that follows succeeds. *)
Lemma service_failure_recovered_witness :
  let x := fetch demo_runtime (world_of [0%nat] []) g_seen in
  result x = Ret tt
  /\ reloads (trace_of x) = 0%nat
  /\ weather_data (final x) = obs_clear
  /\ weather_data_old (final x) = obs_clear
  /\ (existsb is_weather (callbacks (world_of [0%nat] []) 0) = false ->
      weather_data (final x) = obs_clear)
  /\ cycle demo_runtime (world_of [0%nat] []) g_seen
     = (result (process demo_runtime (world_of [0%nat] []) (final x)),
        final (process demo_runtime (world_of [0%nat] []) (final x)),
        trace_of x ++ trace_of (process demo_runtime (world_of [0%nat] []) (final x))).
Proof.
  apply (service_failure_recovered demo_runtime (world_of [0%nat] []) g_seen
           broken (bump 1 g_seen) [ELoop 10]); reflexivity.
Defined.

(** [aio.loop] and [aio.connect()] both fail. *)
Lemma service_and_reconnect_failure_witness :
  let x := cycle demo_runtime (world_of [0%nat; 1%nat] []) g_fresh in
  result x = Reload
  /\ reloads (trace_of x) = 1%nat
  /\ publishes (trace_of x) = []
  /\ trace_of x
     = [EPixel YELLOW; ESleep 2.5] ++ [ELoop 10] ++ fetch_fatal_trace broken broken.
Proof.
  apply (service_and_reconnect_failure demo_runtime
           (world_of [0%nat; 1%nat] []) g_fresh
           broken broken (bump 1 g_fresh) [ELoop 10]); reflexivity.
Defined.

(** The observation on hand has been published before. *)
Lemma unchanged_observation_skips_publish_witness :
  cycle demo_runtime (world_of [] []) g_seen
  = (Ret tt, bump 1 g_seen,
     [EPixel YELLOW; ESleep 2.5; ELoop 10; EPixel GREEN] ++ busy_trace 120)
  /\ publishes ([EPixel YELLOW; ESleep 2.5; ELoop 10; EPixel GREEN]
                ++ busy_trace 120) = [].
Proof.
  apply (unchanged_observation_skips_publish demo_runtime (world_of [] [])
           g_seen (bump 1 g_seen)
           [EPixel YELLOW; ESleep 2.5; ELoop 10; EPixel GREEN]);
    [right; reflexivity | reflexivity | reflexivity | reflexivity].
Defined.

(** The publish of the condition code (call 2 of the turn, after the
    clock and the watchdog) fails and the reconnect succeeds: the turn
    goes on with the humidity, and "Clear" is sent once. *)
Lemma publish_failure_not_retried_witness :
  let w := world_of [2%nat] [] in
  let x := process demo_runtime w g_fresh in
  let rest := send w (drop 2 (plan demo_runtime 600 DEMO_DERIVED))
                (bump 4 g_fresh) in
  (exists t_end,
     trace_of x
     = DEMO_DERIVE_TRACE
       ++ publish_ok_trace "system-watchdog" (VInt 10)
       ++ publish_recovered_trace "weather-description" (VStr "Clear") broken
       ++ trace_of rest ++ t_end
     /\ publishes t_end = [])
  /\ (exists t',
        trace_of rest
        = trace_of (publish_to_aio w (VFloat 50) "weather-humidity"
                      (bump 4 g_fresh)) ++ t')
  /\ publishes_to "weather-description" (trace_of x) = [VStr "Clear"].
Proof.
  apply (publish_failure_not_retried demo_runtime (world_of [2%nat] []) g_fresh
           DEMO_DERIVED g_fresh DEMO_DERIVE_TRACE
           [("system-watchdog", VInt 10)]
           (drop 2 (plan demo_runtime 600 DEMO_DERIVED))
           "weather-description" (VStr "Clear")
           (bump 2 g_fresh)
           (publish_ok_trace "system-watchdog" (VInt 10)) broken);
    vm_compute; reflexivity.
Defined.

(** The first observation arrives and every call goes through: the eight
    publishes, in order. *)
Lemma publish_order_witness :
  exists g1 tf d g2 td,
    fetch demo_runtime (world_of [] [(0%nat, "clear")]) g_start = (Ret tt, g1, tf)
    /\ derive demo_runtime g1 = (Ret d, g2, td)
    /\ derived_from demo_runtime (weather_data g1) d
    /\ let todo := plan demo_runtime
                     (monotonic (world_of [] [(0%nat, "clear")]) (calls g2)) d in
       map fst todo = FEEDS
       /\ publishes (trace_of (cycle demo_runtime
                                 (world_of [] [(0%nat, "clear")]) g_start))
          `prefix_of` present todo
       /\ (result (cycle demo_runtime (world_of [] [(0%nat, "clear")]) g_start)
           = Ret tt ->
           publishes (trace_of (cycle demo_runtime
                                  (world_of [] [(0%nat, "clear")]) g_start))
           = present todo)
       /\ (is_none (weatherkit_desc d) = false ->
           is_none (weatherkit_temp d) = false -> present todo = todo).
Proof.
  apply (publish_order demo_runtime (world_of [] [(0%nat, "clear")]) g_start
           (result (cycle demo_runtime (world_of [] [(0%nat, "clear")]) g_start))
           (final (cycle demo_runtime (world_of [] [(0%nat, "clear")]) g_start))).
  - reflexivity.
  - vm_compute. discriminate.
Defined.

(** The wind gusts and the wind speed are the floats Python writes
    [4.9712] and [3.1069999999999998]. *)
Example clear_day_publishes :
  publishes (trace_of (cycle demo_runtime (world_of [] [(0%nat, "clear")]) g_start))
  = [("system-watchdog", VInt 10);
     ("weather-description", VStr "Clear");
     ("weather-humidity", VFloat 50);
     ("weather-temperature", VFloat (20 * (9 # 5) + 32));
     ("weather-winddirection", VStr "E");
     ("weather-windgusts", VFloat (1399268404224013 # 281474976710656));
     ("weather-windspeed", VFloat (6996342021120065 # 2251799813685248));
     ("weather-daylight", VStr "True")].
Proof. vm_compute. reflexivity. Qed.

(** C6 as the specification words it does not hold: a turn that publishes
    need not publish the eight values.  A condition code that is [null]
    is not published, the other seven values are, and the turn ends
    normally; and when a publish and the reconnect after it fail in the
    middle of the eight, the calls made are the first three. *)
Lemma publishing_turn_with_fewer_calls :
  (let x := cycle demo_runtime (world_of [] [(0%nat, "nocode")]) g_start in
   result x = Ret tt
   /\ map fst (publishes (trace_of x))
      = ["system-watchdog"; "weather-humidity"; "weather-temperature";
         "weather-winddirection"; "weather-windgusts"; "weather-windspeed";
         "weather-daylight"]
   /\ map fst (publishes (trace_of x)) <> FEEDS)
  /\ (let x := cycle demo_runtime (world_of [4%nat; 5%nat] [(0%nat, "clear")])
                 g_start in
      result x = Reload
      /\ map fst (publishes (trace_of x))
         = ["system-watchdog"; "weather-description"; "weather-humidity"]
      /\ map fst (publishes (trace_of x)) <> FEEDS).
Proof. vm_compute. split_and!; try reflexivity; discriminate. Qed.

(** C7 as the specification words it does not hold at night: the icon on
    a miss is ["99d"], not ["99n"]. *)
Lemma unknown_code_icon_at_night :
  misses demo_runtime (VStr "Tornado")
  /\ result (icon_and_description demo_runtime (VStr "Tornado") (VBool false)
               g_start)
     <> Ret (icon_by_daylight (VBool false), "unknown description: Tornado").
Proof.
  split; [reflexivity |]. vm_compute. discriminate.
Qed.

Lemma unknown_code_fallback_witness :
  icon_and_description demo_runtime (VStr "Tornado") (VBool false) g_start
  = (Ret ("99d", "unknown description: Tornado"), g_start,
     [EPrint [Lit "  NO Description: "; Err (KeyError (VStr "Tornado"))]]).
Proof.
  apply (unknown_code_fallback demo_runtime (VStr "Tornado") (VBool false)
           g_start).
  reflexivity.
Defined.

(** A condition code that does not hash (a JSON array) is no [KeyError]:
    the handler of line 198 lets the [TypeError] pass. *)
Example unhashable_code_raises :
  result (icon_and_description demo_runtime (VList [VStr "Clear"]) (VBool true)
            g_start)
  = Raise (TypeError "unhashable type").
Proof. reflexivity. Qed.

(** C8 as the specification words it does not hold: the 60 seconds before
    the reload are one plain sleep; the trace of a fatal turn holds no
    pulse of the LED, so the trace of [blink 60] is not part of it. *)
Lemma fatal_wait_does_not_blink :
  result (fetch demo_runtime (world_of [0%nat; 1%nat] []) g_start) = Reload
  /\ ~ waits_by_blinking
         (trace_of (fetch demo_runtime (world_of [0%nat; 1%nat] []) g_start)) 60.
Proof.
  split; [reflexivity |]. intros (pre & post & H).
  assert (filter is_led
            (trace_of (fetch demo_runtime (world_of [0%nat; 1%nat] []) g_start))
          = []) as Hled by reflexivity.
  rewrite H, !filter_app in Hled.
  apply app_eq_nil in Hled as [_ Hled].
  apply app_eq_nil in Hled as [Hled _].
  discriminate Hled.
Qed.

(** WiFi is not there at start-up. *)
Lemma fatal_restart_protocol_witness :
  restart_trace (trace_of (script demo_runtime (world_of [0%nat] []) 3 g_start))
  /\ reloads (trace_of (script demo_runtime (world_of [0%nat] []) 3 g_start))
     = 1%nat
  /\ forall (B : Type) (next : unit -> M B),
       result ((script demo_runtime (world_of [0%nat] []) 3 ≫= next) g_start)
       = Reload
       /\ trace_of ((script demo_runtime (world_of [0%nat] []) 3 ≫= next) g_start)
          = trace_of (script demo_runtime (world_of [0%nat] []) 3 g_start).
Proof.
  apply (fatal_restart_protocol demo_runtime (world_of [0%nat] []) 3 g_start).
  reflexivity.
Defined.

(** The three places of the script that reload. *)
Example fatal_at_startup :
  script demo_runtime (world_of [0%nat] []) 3 g_start
  = (Reload, bump 1 g_start,
     [ELed false; EPixel YELLOW;
      EPrint [Lit "Connecting to "; Val (VStr "secret")];
      EWifiConnect (VStr "secret") (VStr "secret");
      EPixel RED;
      EPrint [Lit "  FAILED: connect to WiFi. Error: "; Err broken]]
     ++ RESTART_TAIL).
Proof. reflexivity. Qed.

Example fatal_in_fetch :
  fetch demo_runtime (world_of [0%nat; 1%nat] []) g_start
  = (Reload, bump 2 g_start,
     [EPixel YELLOW; ESleep 2.5; ELoop 10] ++ fetch_fatal_trace broken broken).
Proof. reflexivity. Qed.

Example fatal_in_publish :
  publish_to_aio (world_of [0%nat; 1%nat] []) (VStr "E") "weather-winddirection"
    g_start
  = (Reload, bump 2 g_start,
     publish_fatal_trace "weather-winddirection" (VStr "E") broken broken).
Proof. reflexivity. Qed.

(** A new observation; the publish of the condition code fails (call 2)
    and the reconnect goes through; much later the same observation is
    delivered once more. *)
Lemma commit_despite_failed_publish_witness :
  let w := world_of [2%nat] [(30%nat, "clear")] in
  let x := process demo_runtime w g_fresh in
  result x = Ret tt
  /\ weather_data_old (final x) = obs_clear
  /\ weather_data (final x) = obs_clear
  /\ ("weather-description", VStr "Clear") ∈ publishes (trace_of x)
  /\ forall n, publishes (trace_of (cycles demo_runtime w n (final x))) = [].
Proof.
  cbv zeta.
  assert (no_double_failure (world_of [2%nat] [(30%nat, "clear")])) as Hw.
  { intros n. destruct (Nat.eqb n 2) eqn:E.
    - right. apply Nat.eqb_eq in E. subst n. reflexivity.
    - left. cbn. rewrite E. reflexivity. }
  assert (forall k, nothing_new_from demo_runtime
                      (world_of [2%nat] [(30%nat, "clear")]) k obs_clear) as Hq.
  { intros k m _. unfold world_of, callbacks. cbn [omap list_omap fst snd].
    destruct (Nat.eqb 30 m); [| constructor].
    constructor; [| constructor].
    intros _ v [= <-]. apply py_ne_same. }
  assert (exists d g1 td, derive demo_runtime g_fresh = (Ret d, g1, td))
    as (d & g1 & td & Hd) by (vm_compute; eauto).
  destruct (commit_despite_failed_publish demo_runtime
              (world_of [2%nat] [(30%nat, "clear")]) g_fresh
              d g1 td eq_refl eq_refl Hd) as (Hend & Hret & Hlater).
  specialize (Hret Hw).
  destruct Hend as [Hbad | (_ & Hold & Hdata)]; [congruence |].
  split_and!; [exact Hret | exact Hold | exact Hdata | | ].
  - vm_compute. apply list_elem_of_In. simpl. tauto.
  - intros n. apply (Hlater Hret n), Hq.
Defined.

Example failed_publish_is_not_repeated :
  let w := world_of [2%nat] [] in
  publishes (trace_of (cycles demo_runtime w 3 g_fresh))
  = [("system-watchdog", VInt 10);
     ("weather-description", VStr "Clear");
     ("weather-humidity", VFloat 50);
     ("weather-temperature", VFloat (20 * (9 # 5) + 32));
     ("weather-winddirection", VStr "E");
     ("weather-windgusts", VFloat (1399268404224013 # 281474976710656));
     ("weather-windspeed", VFloat (6996342021120065 # 2251799813685248));
     ("weather-daylight", VStr "True")]
  /\ weather_data_old (final (cycles demo_runtime w 3 g_fresh)) = obs_clear.
Proof. vm_compute. split; reflexivity. Qed.

(** * Further properties of the script *)

(** ** [wind_direction] *)






Example wind_direction_boundaries :
  wind_direction (VInt 22) = inr (VStr "N")
  /\ wind_direction (VInt 23) = inr (VStr "NE")
  /\ wind_direction (VFloat 22.5) = inr (VStr "NE")
  /\ wind_direction (VInt (-23)) = inr (VStr "NW")
  /\ wind_direction (VInt 337) = inr (VStr "NW")
  /\ wind_direction (VInt 338) = inr (VStr "N")
  /\ wind_direction (VBool true) = inr (VStr "N")
  /\ wind_direction (VStr "90") = inl (TypeError "unsupported operand type(s) for +").
Proof. vm_compute. repeat split; reflexivity. Qed.

(** Beyond [2 ^ 53] the conversion of an int heading rounds: this one is
    labelled E, where exact arithmetic would give NE. *)
Example wind_direction_large_int :
  sector_of 9007199254741027 = 1
  /\ wind_direction (VInt 9007199254741027) = inr (VStr "E").
Proof. vm_compute. split; reflexivity. Qed.

(** ** Properties of every event of a trace *)

Section Everywhere.
Context (P : event -> Prop).

Lemma everywhere_ret {A} (a : A) : everywhere P (ret a).
Proof. intros g. constructor. Qed.

Lemma everywhere_mret {A} (a : A) : everywhere P (mret a).
Proof. intros g. constructor. Qed.

Lemma everywhere_raise {A} (e : exn) : everywhere P (@raise A e).
Proof. intros g. constructor. Qed.

Lemma everywhere_lift {A} (r : exn + A) : everywhere P (lift r).
Proof. destruct r; intros g; constructor. Qed.

Lemma everywhere_emit (e : event) : P e -> everywhere P (emit e).
Proof. intros H g. constructor; [exact H | constructor]. Qed.

Lemma everywhere_next_call : everywhere P next_call.
Proof. intros g. constructor. Qed.

Lemma everywhere_get_weather_data : everywhere P get_weather_data.
Proof. intros g. constructor. Qed.

Lemma everywhere_get_weather_data_old : everywhere P get_weather_data_old.
Proof. intros g. constructor. Qed.

Lemma everywhere_set_weather_data v : everywhere P (set_weather_data v).
Proof. intros g. constructor. Qed.

Lemma everywhere_set_weather_data_old v : everywhere P (set_weather_data_old v).
Proof. intros g. constructor. Qed.

Lemma everywhere_answer w n : everywhere P (answer w n).
Proof. unfold answer. destruct (reply w n); intros g; constructor. Qed.

Lemma everywhere_bind {A B} (c : M A) (k : A -> M B) :
  everywhere P c -> (forall a, everywhere P (k a)) -> everywhere P (c ≫= k).
Proof.
  intros Hc Hk g. rewrite bind_run. specialize (Hc g).
  destruct (c g) as [[[a|e|] g1] t1]; unfold trace_of in *; cbn [snd] in *;
    try exact Hc.
  specialize (Hk a g1). destruct (k a g1) as [[r g2] t2].
  unfold trace_of in *; cbn [snd] in *. apply Forall_app. split; assumption.
Qed.

Lemma everywhere_try_except {A} catches (body : M A) handler :
  everywhere P body -> (forall e, everywhere P (handler e)) ->
  everywhere P (try_except catches body handler).
Proof.
  intros Hb Hh g. unfold try_except. specialize (Hb g).
  destruct (body g) as [[[a|e|] g1] t1]; unfold trace_of in *; cbn [snd] in *;
    try exact Hb.
  destruct (catches e); [| exact Hb].
  specialize (Hh e g1). destruct (handler e g1) as [[r g2] t2].
  unfold trace_of in *; cbn [snd] in *. apply Forall_app. split; assumption.
Qed.

Lemma everywhere_blink n :
  P (ELed true) -> P (ELed false) -> P (ESleep 0.05) -> P (ESleep 0.95) ->
  everywhere P (blink n).
Proof.
  intros H1 H2 H3 H4 g. rewrite blink_run. unfold trace_of. cbn [snd].
  induction n as [|n IH]; simpl; repeat constructor; assumption.
Qed.
End Everywhere.

(** Walks down a block of statements; [side] settles what is asked of a
    single event. *)
Ltac everywhere_steps side :=
  repeat first
    [ apply everywhere_ret | apply everywhere_mret | apply everywhere_raise
    | apply everywhere_lift | apply everywhere_next_call
    | apply everywhere_get_weather_data | apply everywhere_get_weather_data_old
    | apply everywhere_set_weather_data | apply everywhere_set_weather_data_old
    | apply everywhere_answer
    | apply everywhere_blink; side
    | apply everywhere_emit; side
    | match goal with H : everywhere _ ?c |- everywhere _ ?c => exact H end
    | match goal with |- everywhere _ (if ?b then _ else _) => destruct b end
    | apply everywhere_bind; [| intros ?]
    | apply everywhere_try_except; [| intros ?] ].

(** ** Code that calls neither [aio.loop] nor [aio.publish] *)

(** The pieces below leave only events other than those two calls, so
    they satisfy every [P] that such events satisfy. *)
Section Plain.
Context (rt : runtime) (w : world).
Context (P : event -> Prop) (HP : forall e, is_call e = false -> P e).

Lemma plain_busy delay : everywhere P (busy delay).
Proof. unfold busy. everywhere_steps ltac:(apply HP; reflexivity). Qed.

Lemma plain_run_callbacks cbs : everywhere P (run_callbacks rt cbs).
Proof.
  induction cbs as [|cb cbs IH]; simpl; [apply everywhere_ret |].
  apply everywhere_bind; [| intros _; exact IH].
  destruct cb; simpl; unfold message, subscribe;
    everywhere_steps ltac:(apply HP; reflexivity).
Qed.

Lemma plain_icon_and_description desc daylight :
  everywhere P (icon_and_description rt desc daylight).
Proof.
  unfold icon_and_description. everywhere_steps ltac:(apply HP; reflexivity).
Qed.

Lemma plain_derive : everywhere P (derive rt).
Proof.
  unfold derive, weather_field.
  repeat first [ apply plain_icon_and_description
               | progress everywhere_steps ltac:(apply HP; reflexivity) ].
Qed.

Lemma plain_startup : everywhere P (startup rt w).
Proof.
  unfold startup.
  repeat first [ apply plain_run_callbacks
               | progress everywhere_steps ltac:(apply HP; reflexivity) ].
Qed.

Lemma plain_time_monotonic : everywhere P (time_monotonic w).
Proof. unfold time_monotonic. everywhere_steps ltac:(apply HP; reflexivity). Qed.
End Plain.

Ltac no_call_side := exact eq_refl.

Lemma no_call_plain (e : event) : is_call e = false -> no_call e.
Proof. intros H. exact H. Qed.

(** ** The 2.5 s throttle *)

Lemma throttled_after_ready (b : bool) (t : list event) :
  throttled_after false t = true -> throttled_after b t = true.
Proof.
  destruct t as [|e t]; [reflexivity |]. simpl.
  destruct (is_call e); [discriminate | auto].
Qed.

Lemma throttled_after_app (b : bool) (t1 t2 : list event) :
  throttled_after b t1 = true ->
  throttled_after false t2 = true ->
  throttled_after b (t1 ++ t2) = true.
Proof.
  revert b. induction t1 as [|e t1 IH]; intros b H1 H2; simpl.
  - apply throttled_after_ready, H2.
  - simpl in H1. apply andb_true_iff in H1 as [He Ht].
    rewrite He. apply IH; assumption.
Qed.

Lemma throttled_app (t1 t2 : list event) :
  throttled t1 = true -> throttled t2 = true -> throttled (t1 ++ t2) = true.
Proof. apply throttled_after_app. Qed.

Lemma no_call_throttled (b : bool) (t : list event) :
  Forall no_call t -> throttled_after b t = true.
Proof.
  intros H. revert b. induction H as [|e t He _ IH]; intros b; [reflexivity |].
  simpl. unfold no_call in He. rewrite He. apply IH.
Qed.

Section Paced.
Context (rt : runtime) (w : world).

Lemma paced_everywhere {A} (c : M A) : everywhere no_call c -> paced c.
Proof. intros H g. apply no_call_throttled, H. Qed.

Lemma paced_bind {A B} (c : M A) (k : A -> M B) :
  paced c -> (forall a, paced (k a)) -> paced (c ≫= k).
Proof.
  intros Hc Hk g. rewrite bind_run. specialize (Hc g).
  destruct (c g) as [[[a|e|] g1] t1]; unfold trace_of in *; cbn [snd] in *;
    try exact Hc.
  specialize (Hk a g1). destruct (k a g1) as [[r g2] t2].
  unfold trace_of in *; cbn [snd] in *. apply throttled_app; assumption.
Qed.

Lemma paced_publish_to_aio value feed : paced (publish_to_aio w value feed).
Proof.
  intros g.
  destruct (publish_to_aio_cases w value feed g)
    as [[_ E] | [(_ & _ & E) | [(e & _ & _ & _ & E) | (e & e' & _ & _ & _ & E)]]];
    rewrite E; reflexivity.
Qed.

Lemma paced_publish_all d : paced (publish_all rt w d).
Proof.
  unfold publish_all.
  apply paced_bind;
    [apply paced_everywhere; unfold time_monotonic;
     everywhere_steps no_call_side | intros now].
  repeat (apply paced_bind; [apply paced_publish_to_aio | intros _]).
  apply paced_publish_to_aio.
Qed.

Lemma paced_republish : paced (republish rt w).
Proof.
  unfold republish.
  apply paced_bind; [apply paced_everywhere, (plain_derive rt no_call no_call_plain) | intros d].
  apply paced_bind; [apply paced_publish_all | intros _].
  apply paced_everywhere. everywhere_steps no_call_side.
Qed.

Lemma paced_process : paced (process rt w).
Proof.
  unfold process.
  apply paced_bind;
    [apply paced_everywhere, everywhere_get_weather_data | intros wd].
  destruct (py_truthy wd).
  - apply paced_bind;
      [apply paced_everywhere, everywhere_get_weather_data | intros wd'].
    apply paced_bind;
      [apply paced_everywhere, everywhere_get_weather_data_old | intros old].
    apply paced_bind; [| intros _; apply paced_everywhere, (plain_busy no_call no_call_plain _)].
    destruct (py_ne wd' old);
      [apply paced_republish | apply paced_everywhere, everywhere_ret].
  - apply paced_bind; [| intros _; apply paced_everywhere, (plain_busy no_call no_call_plain _)].
    apply paced_everywhere. unfold print. everywhere_steps no_call_side.
Qed.

(** The trace of [aio.loop]: the call, then what the call-backs print. *)
Lemma aio_loop_trace timeout g :
  exists t, trace_of (aio_loop rt w timeout g) = ELoop timeout :: t
            /\ Forall no_call t.
Proof.
  rewrite aio_loop_run.
  pose proof (plain_run_callbacks rt no_call no_call_plain (callbacks w (calls g)) (bump 1 g)) as H.
  destruct (run_callbacks rt _ _) as [[[[]|e|] g1] t1];
    unfold trace_of in *; cbn [snd] in *; try (exists t1; split; [reflexivity | exact H]).
  destruct (reply w (calls g)); exists t1; split; try reflexivity; exact H.
Qed.

Lemma paced_fetch : paced (fetch rt w).
Proof.
  intros g.
  destruct (aio_loop_trace 10 g) as (t & Ht & Hno).
  pose proof (mild_aio_loop rt w 10 g) as (_ & _ & _ & N & _).
  destruct (aio_loop rt w 10 g) as [[[[]|e|] g1] t1] eqn:E;
    unfold trace_of, result in *; cbn [fst snd] in *; subst t1;
    [| | congruence].
  - rewrite (fetch_ok _ _ _ _ _ E). unfold throttled. cbn.
    apply throttled_after_app; [apply no_call_throttled, Hno | reflexivity].
  - destruct (reply w (calls g1)) as [e'|] eqn:Hr.
    + rewrite (fetch_fatal _ _ _ _ _ _ _ E Hr). unfold throttled. cbn.
      apply throttled_after_app; [apply no_call_throttled, Hno | reflexivity].
    + rewrite (fetch_recovered _ _ _ _ _ _ E Hr). unfold throttled. cbn.
      apply throttled_after_app; [apply no_call_throttled, Hno | reflexivity].
Qed.

Lemma paced_cycles n : paced (cycles rt w n).
Proof.
  induction n as [|n IH]; simpl; [intros g; reflexivity |].
  apply paced_bind; [| intros _; exact IH].
  unfold cycle. apply paced_bind; [apply paced_fetch | intros _].
  apply paced_process.
Qed.
End Paced.

(** X6.  In every run of the script, each call of [aio.loop] and each call
    of [aio.publish] comes immediately after a [time.sleep(2.5)]. *)
Theorem script_throttled (rt : runtime) (w : world) (n : nat) (g : globals) :
  throttled (trace_of (script rt w n g)) = true.
Proof.
  revert g. change (paced (script rt w n)). unfold script.
  apply paced_bind; [apply paced_everywhere, (plain_startup rt w no_call no_call_plain) | intros _].
  apply paced_cycles.
Qed.

Example throttled_rejects_bare_publish :
  throttled [ESleep 2.5; EPublish "a" (VInt 1); EPublish "b" (VInt 2)] = false
  /\ throttled [ESleep 2.5; EPixel GREEN; ELoop 10] = false
  /\ throttled [ESleep 2.5; ELoop 10; ESleep 2.5; EPublish "a" (VInt 1)] = true.
Proof. repeat split; reflexivity. Qed.

(** ** What is published, and where *)

Lemma everywhere_supervisor_reload (P : event -> Prop) {A} :
  P EReload -> everywhere P (@supervisor_reload A).
Proof. intros H g. constructor; [exact H | constructor]. Qed.

Lemma feed_ok_plain (e : event) : is_call e = false -> feed_ok e.
Proof. destruct e; simpl; intros H; try exact I. discriminate. Qed.

Section Feeds.
Context (rt : runtime) (w : world).

Lemma feed_ok_publish_to_aio value feed :
  feed ∈ FEEDS -> everywhere feed_ok (publish_to_aio w value feed).
Proof.
  intros Hf g.
  destruct (publish_to_aio_cases w value feed g)
    as [[_ E] | [(Hv & _ & E) | [(e & Hv & _ & _ & E) | (e & e' & Hv & _ & _ & E)]]];
    rewrite E; unfold trace_of; cbn [snd];
    unfold publish_ok_trace, publish_recovered_trace, publish_fatal_trace,
      publish_failed_trace, RESTART_TAIL; cbn [app];
    repeat (apply List.Forall_cons; [first [exact I | split; assumption] |]);
    apply List.Forall_nil.
Qed.

Lemma feed_ok_publish_all d : everywhere feed_ok (publish_all rt w d).
Proof.
  unfold publish_all.
  apply everywhere_bind; [apply plain_time_monotonic | intros now].
  repeat (apply everywhere_bind;
          [apply feed_ok_publish_to_aio; unfold FEEDS; set_solver | intros _]).
  apply feed_ok_publish_to_aio. unfold FEEDS. set_solver.
Qed.

Lemma feed_ok_fetch : everywhere feed_ok (fetch rt w).
Proof.
  unfold fetch, aio_loop, aio_connect.
  repeat first [ apply plain_run_callbacks, feed_ok_plain
               | apply everywhere_supervisor_reload; exact I
               | progress everywhere_steps ltac:(exact I) ].
Qed.

Lemma feed_ok_republish : everywhere feed_ok (republish rt w).
Proof.
  unfold republish.
  apply everywhere_bind; [apply plain_derive, feed_ok_plain | intros d].
  apply everywhere_bind; [apply feed_ok_publish_all | intros _].
  apply everywhere_bind; [apply everywhere_get_weather_data | intros v].
  apply everywhere_set_weather_data_old.
Qed.

Lemma feed_ok_process : everywhere feed_ok (process rt w).
Proof.
  unfold process.
  apply everywhere_bind; [apply everywhere_get_weather_data | intros wd].
  destruct (py_truthy wd).
  - apply everywhere_bind; [apply everywhere_get_weather_data | intros wd'].
    apply everywhere_bind; [apply everywhere_get_weather_data_old | intros old].
    apply everywhere_bind; [| intros _; apply plain_busy, feed_ok_plain].
    destruct (py_ne wd' old); [apply feed_ok_republish | apply everywhere_ret].
  - apply everywhere_bind; [| intros _; apply plain_busy, feed_ok_plain].
    apply everywhere_emit. exact I.
Qed.

Lemma feed_ok_cycles n : everywhere feed_ok (cycles rt w n).
Proof.
  induction n as [|n IH]; simpl; [apply everywhere_ret |].
  apply everywhere_bind; [| intros _; exact IH].
  unfold cycle. apply everywhere_bind; [apply feed_ok_fetch | intros _].
  apply feed_ok_process.
Qed.
End Feeds.

(** X7.  Whatever the broker and the observations do, the script calls
    [aio.publish] only with one of the eight feed names of lines 205-212
    and never with the value [None]. *)
Theorem script_publishes_only_feeds (rt : runtime) (w : world) (n : nat)
    (g : globals) (feed : string) (value : pyval) :
  EPublish feed value ∈ trace_of (script rt w n g) ->
  feed ∈ FEEDS /\ value <> VNone.
Proof.
  intros Hin.
  assert (everywhere feed_ok (script rt w n)) as H.
  { unfold script. apply everywhere_bind;
      [apply plain_startup, feed_ok_plain | intros _; apply feed_ok_cycles]. }
  specialize (H g). rewrite Forall_forall in H. specialize (H _ Hin).
  destruct H as [Hf Hv]. split; [exact Hf |]. intros ->. discriminate.
Qed.

Lemma script_publishes_only_feeds_witness :
  "weather-humidity" ∈ FEEDS /\ VFloat 50 <> VNone.
Proof.
  apply (script_publishes_only_feeds demo_runtime
           (world_of [] [(4%nat, "clear")]) 1 g_start).
  vm_compute. apply list_elem_of_In. simpl. tauto.
Defined.

(** ** [busy] *)

Lemma slept_blink (n : nat) : (slept (blink_trace n) == inject_Z (Z.of_nat n))%Q.
Proof.
  induction n as [|n IH]; [reflexivity |].
  cbn [blink_trace slept]. rewrite IH, Nat2Z.inj_succ.
  unfold Z.succ. rewrite inject_Z_plus. ring.
Qed.

Lemma leds_blink (n : nat) :
  leds (blink_trace n) = mjoin (replicate n [true; false]).
Proof. induction n as [|n IH]; [reflexivity |]. cbn. f_equal. f_equal. exact IH. Qed.

Lemma pixels_blink (n : nat) : pixels (blink_trace n) = [].
Proof. induction n as [|n IH]; [reflexivity | exact IH]. Qed.

(** X3.  [busy(delay)] always returns, leaves the globals alone, sets the
    pixel to black once, pulses the LED [delay] times (not at all for a
    delay of zero or less) ending with the LED off, and sleeps [delay]
    seconds in all. *)
Theorem busy_pulses (delay : Z) (g : globals) :
  busy delay g = (Ret tt, g, busy_trace delay)
  /\ (slept (busy_trace delay) == inject_Z (Z.max 0 delay))%Q
  /\ leds (busy_trace delay) = mjoin (replicate (Z.to_nat delay) [true; false])
  /\ pixels (busy_trace delay) = [BLACK]
  /\ publishes (busy_trace delay) = [].
Proof.
  split_and!.
  - apply busy_run.
  - unfold busy_trace. cbn [slept]. rewrite slept_blink.
    assert (Z.of_nat (Z.to_nat delay) = Z.max 0 delay) as -> by lia.
    reflexivity.
  - apply leds_blink.
  - unfold busy_trace, pixels. cbn. f_equal. apply pixels_blink.
  - pose proof (calm_busy delay) as [H _]. specialize (H g) as (P & _).
    rewrite busy_run in P. exact P.
Qed.

(** ** [publish_to_aio] *)

(** X4.  [publish_to_aio] lets no exception out: it returns or it reloads.
    It calls [aio.publish] at most once, consults the environment at most
    twice, and leaves [weather_data] and [weather_data_old] alone. *)
Theorem publish_to_aio_contained (w : world) (value : pyval) (feed : string)
    (g : globals) :
  let x := publish_to_aio w value feed g in
  (result x = Ret tt \/ result x = Reload)
  /\ (length (publishes (trace_of x)) <= 1)%nat
  /\ (calls g <= calls (final x) <= calls g + 2)%nat
  /\ weather_data (final x) = weather_data g
  /\ weather_data_old (final x) = weather_data_old g.
Proof.
  cbv zeta.
  destruct (publish_to_aio_cases w value feed g)
    as [[_ E] | [(_ & _ & E) | [(e & _ & _ & _ & E) | (e & e' & _ & _ & _ & E)]]];
    rewrite E; unfold result, final, trace_of; cbn; split_and!; auto; lia.
Qed.

(** X5.  After [publish_to_aio] with a value, the pixel shows how it went:
    green when it returns (at once or after a reconnect), red when it
    reloads. *)
Theorem publish_to_aio_pixel (w : world) (value : pyval) (feed : string)
    (g : globals) :
  is_none value = false ->
  let x := publish_to_aio w value feed g in
  last (pixels (trace_of x))
  = Some (match result x with Ret _ => GREEN | _ => RED end).
Proof.
  intros Hv. cbv zeta.
  destruct (publish_to_aio_cases w value feed g)
    as [[-> E] | [(_ & _ & E) | [(e & _ & _ & _ & E) | (e & e' & _ & _ & _ & E)]]];
    [discriminate | | |]; rewrite E; reflexivity.
Qed.

Lemma publish_to_aio_pixel_witness :
  let x := publish_to_aio (world_of [0%nat; 1%nat] []) (VStr "E")
             "weather-winddirection" g_start in
  last (pixels (trace_of x)) = Some RED.
Proof.
  apply (publish_to_aio_pixel (world_of [0%nat; 1%nat] []) (VStr "E")
           "weather-winddirection" g_start).
  reflexivity.
Defined.

(** ** The icon look-up *)

(** X18.  For a condition code the table knows, the look-up returns the
    description of the entry and its icon base followed by ["d"] when the
    daylight flag tests true and by ["n"] otherwise; it prints nothing. *)
Theorem known_code_icon (rt : runtime) (code desc base : string)
    (daylight : pyval) (g : globals) :
  kit_to_map_icon rt !! code = Some (desc, base) ->
  icon_and_description rt (VStr code) daylight g
  = (Ret ((base ++ (if py_truthy daylight then "d" else "n"))%string, desc),
     g, []).
Proof.
  intros H. unfold icon_and_description. run_M. cbn [table_getitem].
  destruct (py_truthy daylight); rewrite H; reflexivity.
Qed.

Lemma known_code_icon_witness :
  icon_and_description demo_runtime (VStr "Rain") (VInt 0) g_start
  = (Ret ("10n", "rain"), g_start, []).
Proof.
  apply (known_code_icon demo_runtime "Rain" "rain" "10" (VInt 0) g_start).
  reflexivity.
Defined.

(** ** [message] and the service step *)

Section Messages.
Context (rt : runtime) (w : world).

(** Call-backs without a weather message change nothing at all. *)
Lemma run_callbacks_unrelated cbs g :
  existsb is_weather cbs = false ->
  exists t, run_callbacks rt cbs g = (Ret tt, g, t).
Proof.
  induction cbs as [|cb cbs IH]; simpl; intros H; [eexists; reflexivity |].
  apply orb_false_iff in H as [Hcb Hrest]. destruct (IH Hrest) as (t & Ht).
  rewrite bind_run.
  destruct cb as [feed_id payload | topic qos]; simpl in *.
  - unfold message. rewrite Hcb. cbn. rewrite Ht. eexists. reflexivity.
  - cbn. rewrite Ht. eexists. reflexivity.
Qed.

(** A weather message that decodes replaces [weather_data]. *)
Lemma message_decoded payload v g :
  json_loads rt payload = inr v ->
  message rt "weather" payload g
  = (Ret tt, mkGlobals v (weather_data_old g) (calls g), []).
Proof. intros H. unfold message. cbn. rewrite bind_run, H. reflexivity. Qed.

(** A weather message that does not decode raises and changes nothing. *)
Lemma message_undecodable payload e g :
  json_loads rt payload = inl e ->
  message rt "weather" payload g = (Raise e, g, []).
Proof. intros H. unfold message. cbn. rewrite bind_run, H. reflexivity. Qed.

Lemma run_callback_decodes cb g :
  decodes rt cb ->
  exists wd t,
    run_callback rt cb g
    = (Ret tt, mkGlobals wd (weather_data_old g) (calls g), t).
Proof.
  destruct cb as [feed_id payload | topic qos]; simpl; intros H.
  - unfold message. destruct (String.eqb feed_id "weather").
    + destruct (H eq_refl) as (v & Hv). rewrite bind_run, Hv.
      exists v, []. reflexivity.
    + exists (weather_data g), []. destruct g. reflexivity.
  - exists (weather_data g). eexists. destruct g. reflexivity.
Qed.
End Messages.

(** X8.  Of the weather messages handed over during one call, the last
    one wins: when all of them decode, [weather_data] ends as the decoded
    payload of the last, whatever came before and whatever other call-backs
    follow; [weather_data_old] is not touched. *)
Theorem last_weather_message_wins (rt : runtime)
    (before : list callback) (payload : string) (after : list callback)
    (v : pyval) (g : globals) :
  Forall (decodes rt) before ->
  json_loads rt payload = inr v ->
  existsb is_weather after = false ->
  let x := run_callbacks rt (before ++ OnMessage "weather" payload :: after) g in
  result x = Ret tt
  /\ weather_data (final x) = v
  /\ weather_data_old (final x) = weather_data_old g
  /\ calls (final x) = calls g.
Proof.
  intros Hb Hv Ha. cbv zeta. revert g.
  induction Hb as [|cb before Hcb _ IH]; intros g.
  - cbn [app run_callbacks run_callback]. rewrite bind_run.
    rewrite (message_decoded rt payload v g Hv).
    destruct (run_callbacks_unrelated rt after
                (mkGlobals v (weather_data_old g) (calls g)) Ha) as (t & ->).
    split_and!; reflexivity.
  - cbn [app run_callbacks]. rewrite bind_run.
    destruct (run_callback_decodes rt cb g Hcb) as (wd & t & ->).
    specialize (IH (mkGlobals wd (weather_data_old g) (calls g))).
    destruct (run_callbacks rt _ _) as [[r g2] t2].
    unfold result, final in *. cbn [fst snd] in *. exact IH.
Qed.

Lemma last_weather_message_wins_witness :
  let x := run_callbacks demo_runtime
             ([OnMessage "weather" "clear"; OnSubscribe "time/seconds" 0;
               OnMessage "other" "{"]
              ++ OnMessage "weather" "tornado" :: [OnMessage "other" "x"])
             g_seen in
  result x = Ret tt
  /\ weather_data (final x) = obs_tornado_night
  /\ weather_data_old (final x) = weather_data_old g_seen
  /\ calls (final x) = calls g_seen.
Proof.
  apply (last_weather_message_wins demo_runtime
           [OnMessage "weather" "clear"; OnSubscribe "time/seconds" 0;
            OnMessage "other" "{"]
           "tornado" [OnMessage "other" "x"] obs_tornado_night g_seen).
  - repeat constructor; simpl; try discriminate.
    intros _. eexists. reflexivity.
  - reflexivity.
  - reflexivity.
Defined.

(** X9.  A weather message whose payload does not decode makes [aio.loop]
    end in the decoder's exception even when the broker itself answers:
    the service step keeps [weather_data], prints the failure, waits and
    calls [aio.connect()]; the call-backs queued behind the message are not
    run.  The turn goes on if that call succeeds and reloads if not. *)
Theorem undecodable_payload_forces_reconnect (rt : runtime) (w : world)
    (g : globals) (before : list callback) (payload : string)
    (after : list callback) (e : exn) :
  callbacks w (calls g) = before ++ OnMessage "weather" payload :: after ->
  existsb is_weather before = false ->
  json_loads rt payload = inl e ->
  let x := fetch rt w g in
  weather_data (final x) = weather_data g
  /\ EPrint [Lit "  FAILED: aio.loop "; Err e] ∈ trace_of x
  /\ EConnect ∈ trace_of x
  /\ calls (final x) = (2 + calls g)%nat
  /\ match reply w (S (calls g)) with
     | None => result x = Ret tt
     | Some _ => result x = Reload
     end.
Proof.
  intros Hcbs Hb Hv. cbv zeta.
  assert (exists t, aio_loop rt w 10 g = (Raise e, bump 1 g, ELoop 10 :: t))
    as (t & Hloop).
  { rewrite aio_loop_run, Hcbs.
    destruct (run_callbacks_unrelated rt before (bump 1 g) Hb) as (t & Ht).
    assert (run_callbacks rt (before ++ OnMessage "weather" payload :: after)
              (bump 1 g) = (Raise e, bump 1 g, t)) as ->.
    { clear Hcbs. revert t Ht. generalize (bump 1 g) as g0.
      induction before as [|cb before IH]; intros g0 t Ht.
      - cbn [app run_callbacks run_callback]. rewrite bind_run.
        rewrite (message_undecodable rt payload e g0 Hv).
        cbn in Ht. injection Ht as <-. reflexivity.
      - cbn in Hb. apply orb_false_iff in Hb as [Hcb Hb].
        cbn [app run_callbacks] in *. rewrite bind_run in *.
        destruct (run_callbacks_unrelated rt [cb] g0) as (t1 & H1).
        { cbn. rewrite Hcb. reflexivity. }
        cbn [run_callbacks] in H1. rewrite bind_run in H1.
        destruct (run_callback rt cb g0) as [[[[]|e1|] g1] tc];
          try discriminate.
        cbn in H1. injection H1 as -> _.
        destruct (run_callbacks rt before g0) as [[[[]|e2|] g2] t2] eqn:E2;
          try discriminate.
        injection Ht as -> <-.
        rewrite (IH Hb g0 t2 E2). reflexivity. }
    eexists. reflexivity. }
  assert (calls (bump 1 g) = S (calls g)) as Hc by reflexivity.
  destruct (reply w (S (calls g))) as [e'|] eqn:Hr.
  - rewrite (fetch_fatal rt w g e e' _ _ Hloop) by (rewrite Hc; exact Hr).
    unfold result, final, trace_of, fetch_fatal_trace, fetch_failed_trace.
    cbn [fst snd].
    split_and!; try reflexivity; set_solver.
  - rewrite (fetch_recovered rt w g e _ _ Hloop) by (rewrite Hc; exact Hr).
    unfold result, final, trace_of, fetch_failed_trace. cbn [fst snd].
    split_and!; try reflexivity; set_solver.
Qed.

Lemma undecodable_payload_forces_reconnect_witness :
  let w := world_of [] [(0%nat, "{truncated"); (0%nat, "clear")] in
  let x := fetch demo_runtime w g_start in
  weather_data (final x) = weather_data g_start
  /\ EPrint [Lit "  FAILED: aio.loop ";
             Err (ValueError "syntax error in JSON")] ∈ trace_of x
  /\ EConnect ∈ trace_of x
  /\ calls (final x) = (2 + calls g_start)%nat
  /\ match reply w (S (calls g_start)) with
     | None => result x = Ret tt
     | Some _ => result x = Reload
     end.
Proof.
  apply (undecodable_payload_forces_reconnect demo_runtime
           (world_of [] [(0%nat, "{truncated"); (0%nat, "clear")]) g_start
           [] "{truncated" [OnMessage "weather" "clear"]
           (ValueError "syntax error in JSON")); reflexivity.
Defined.

Section ServiceStep.
Context (rt : runtime) (w : world).

(** The call-backs only print. *)
Lemma print_run_callbacks cbs : everywhere is_print (run_callbacks rt cbs).
Proof.
  induction cbs as [|cb cbs IH]; simpl; [apply everywhere_ret |].
  apply everywhere_bind; [| intros _; exact IH].
  destruct cb; simpl; unfold message, subscribe;
    everywhere_steps ltac:(exact I).
Qed.

Lemma aio_loop_trace_print timeout g :
  exists t, trace_of (aio_loop rt w timeout g) = ELoop timeout :: t
            /\ Forall is_print t.
Proof.
  rewrite aio_loop_run.
  pose proof (print_run_callbacks (callbacks w (calls g)) (bump 1 g)) as H.
  destruct (run_callbacks rt _ _) as [[[[]|e|] g1] t1];
    unfold trace_of in *; cbn [snd] in *;
    try (exists t1; split; [reflexivity | exact H]).
  destruct (reply w (calls g)); exists t1; split; try reflexivity; exact H.
Qed.

Lemma filter_is_connect_print (t : list event) :
  Forall is_print t -> filter is_connect t = [].
Proof.
  induction 1 as [|e t He _ IH]; [reflexivity |].
  rewrite filter_cons. destruct e; try contradiction. exact IH.
Qed.
End ServiceStep.

(** X10.  The service step lets no exception out, and it calls
    [aio.connect()] exactly when [aio.loop] raised: once then, never
    otherwise. *)
Theorem fetch_connects_after_failure_only (rt : runtime) (w : world)
    (g : globals) :
  let x := fetch rt w g in
  (result x = Ret tt \/ result x = Reload)
  /\ length (filter is_connect (trace_of x))
     = match result (aio_loop rt w 10 g) with
       | Ret _ => 0%nat
       | _ => 1%nat
       end.
Proof.
  cbv zeta.
  destruct (aio_loop_trace_print rt w 10 g) as (t & Ht & Hno).
  apply filter_is_connect_print in Hno.
  pose proof (mild_aio_loop rt w 10 g) as (_ & _ & _ & N & _).
  destruct (aio_loop rt w 10 g) as [[[[]|e|] g1] t1] eqn:E;
    unfold trace_of, result in *; cbn [fst snd] in *; subst t1;
    [| | congruence].
  - rewrite (fetch_ok _ _ _ _ _ E). cbn [fst snd].
    split; [left; reflexivity |].
    rewrite filter_app, (filter_app _ (ELoop 10 :: t)),
      (filter_cons _ (ELoop 10) t), Hno. reflexivity.
  - destruct (reply w (calls g1)) as [e'|] eqn:Hr.
    + rewrite (fetch_fatal _ _ _ _ _ _ _ E Hr). cbn [fst snd].
      split; [right; reflexivity |].
      rewrite filter_app, (filter_app _ (ELoop 10 :: t)),
      (filter_cons _ (ELoop 10) t), Hno. reflexivity.
    + rewrite (fetch_recovered _ _ _ _ _ _ E Hr). cbn [fst snd].
      split; [left; reflexivity |].
      rewrite filter_app, (filter_app _ (ELoop 10 :: t)),
      (filter_cons _ (ELoop 10) t), Hno. reflexivity.
Qed.

(** ** Observations that cannot be decoded into the eight values *)

Lemma derive_required (rt : runtime) g d g1 td key :
  derive rt g = (Ret d, g1, td) ->
  key ∈ REQUIRED_KEYS ->
  exists v, py_getitem (weather_data g) key = inr v.
Proof.
  unfold derive. intros H Hkey.
  repeat match goal with
  | H : (weather_field _ ≫= _) _ = (Ret _, _, _) |- _ =>
      let E := fresh "E" in
      apply bind_Ret_inv in H as (? & ? & ? & ? & E & H & ?);
      apply weather_field_Ret_inv in E as (E & ? & ?); subst
  | H : (lift _ ≫= _) _ = (Ret _, _, _) |- _ =>
      let E := fresh "E" in
      apply bind_Ret_inv in H as (? & ? & ? & ? & E & H & ?);
      apply lift_Ret_inv in E as (E & ? & ?); subst
  | H : (print _ ≫= _) _ = (Ret _, _, _) |- _ =>
      apply bind_Ret_inv in H as (? & ? & ? & ? & _ & H & ?)
  | H : (icon_and_description _ _ _ ≫= _) _ = (Ret _, _, _) |- _ =>
      apply bind_Ret_inv in H as (? & ? & ? & ? & _ & H & ?)
  end.
  unfold REQUIRED_KEYS in Hkey.
  repeat (apply elem_of_cons in Hkey as [-> | Hkey]; [eauto |]).
  apply elem_of_nil in Hkey. contradiction.
Qed.

(** X11.  When a new observation lacks one of the keys the loop reads (or
    is no dict at all), the turn ends in the exception of the failed
    subscript or of an earlier line: nothing is published, the observation
    is not remembered in [weather_data_old], and the statements after the
    turn are not run. *)
Theorem incomplete_observation_stops_script (rt : runtime) (w : world)
    (g : globals) (key : string) (e : exn) :
  py_truthy (weather_data g) = true ->
  py_ne (weather_data g) (weather_data_old g) = true ->
  key ∈ REQUIRED_KEYS ->
  py_getitem (weather_data g) key = inl e ->
  let x := process rt w g in
  (exists e',
     result x = Raise e'
     /\ forall (B : Type) (next : M B),
          result ((process rt w;; next) g) = Raise e'
          /\ trace_of ((process rt w;; next) g) = trace_of x)
  /\ publishes (trace_of x) = []
  /\ reloads (trace_of x) = 0%nat
  /\ weather_data_old (final x) = weather_data_old g.
Proof.
  intros Ht Hne Hkey Hmiss. cbv zeta.
  rewrite (process_changed rt w g Ht Hne).
  destruct (calm_derive rt) as [Hm _].
  specialize (Hm g) as (P & R & O & N & _).
  destruct (derive rt g) as [[[d|e'|] g1] td] eqn:Hd;
    unfold trace_of, final, result in *; cbn [fst snd] in *.
  - destruct (derive_required rt g d g1 td key Hd Hkey) as (v & Hv).
    congruence.
  - assert (process rt w g = (Raise e', g1, td)) as Hp.
    { rewrite (process_changed rt w g Ht Hne).
      rewrite (republish_raise rt w g e' g1 td Hd). reflexivity. }
    rewrite (republish_raise rt w g e' g1 td Hd). cbn [fst snd].
    split_and!; auto.
    exists e'. split; [reflexivity |].
    intros B next. rewrite (bind_Raise _ _ _ _ _ _ Hp). split; reflexivity.
  - exfalso. apply N. reflexivity.
Qed.

Lemma incomplete_observation_stops_script_witness :
  let g := mkGlobals (VDict [("conditionCode", VStr "Clear")]) obs_clear 7 in
  let x := process demo_runtime (world_of [] []) g in
  (exists e',
     result x = Raise e'
     /\ forall (B : Type) (next : M B),
          result ((process demo_runtime (world_of [] []);; next) g) = Raise e'
          /\ trace_of ((process demo_runtime (world_of [] []);; next) g)
             = trace_of x)
  /\ publishes (trace_of x) = []
  /\ reloads (trace_of x) = 0%nat
  /\ weather_data_old (final x) = weather_data_old g.
Proof.
  apply (incomplete_observation_stops_script demo_runtime (world_of [] [])
           (mkGlobals (VDict [("conditionCode", VStr "Clear")]) obs_clear 7)
           "temperature" (KeyError (VStr "temperature")));
    [reflexivity | reflexivity | unfold REQUIRED_KEYS; set_solver | reflexivity].
Defined.

(** ** Start-up *)

(** X12.  When [wifi.radio.connect] raises, start-up ends in the fatal
    handler at once: the script reloads without a single call to the
    broker, and no turn of the loop is run. *)
Theorem startup_wifi_failure (rt : runtime) (w : world) (n : nat)
    (g : globals) (e : exn) :
  reply w (calls g) = Some e ->
  script rt w n g
  = (Reload, bump 1 g,
     [ELed false; EPixel YELLOW;
      EPrint [Lit "Connecting to "; Val (getenv rt "CIRCUITPY_WIFI_SSID")];
      EWifiConnect (getenv rt "CIRCUITPY_WIFI_SSID")
                   (getenv rt "CIRCUITPY_WIFI_PASSWORD");
      EPixel RED;
      EPrint [Lit "  FAILED: connect to WiFi. Error: "; Err e]]
     ++ RESTART_TAIL)
  /\ filter is_broker_call (trace_of (script rt w n g)) = [].
Proof.
  intros H.
  assert (startup rt w g
          = (Reload, bump 1 g,
             [ELed false; EPixel YELLOW;
              EPrint [Lit "Connecting to "; Val (getenv rt "CIRCUITPY_WIFI_SSID")];
              EWifiConnect (getenv rt "CIRCUITPY_WIFI_SSID")
                           (getenv rt "CIRCUITPY_WIFI_PASSWORD");
              EPixel RED;
              EPrint [Lit "  FAILED: connect to WiFi. Error: "; Err e]]
             ++ RESTART_TAIL)) as Hs.
  { unfold startup, wifi_radio_connect. run_M. rewrite H. reflexivity. }
  unfold script. rewrite (bind_Reload _ _ _ _ _ Hs). split; reflexivity.
Qed.

Lemma startup_wifi_failure_witness :
  script demo_runtime (world_of [0%nat] []) 5 g_start
  = (Reload, bump 1 g_start,
     [ELed false; EPixel YELLOW;
      EPrint [Lit "Connecting to "; Val (VStr "secret")];
      EWifiConnect (VStr "secret") (VStr "secret");
      EPixel RED;
      EPrint [Lit "  FAILED: connect to WiFi. Error: "; Err broken]]
     ++ RESTART_TAIL)
  /\ filter is_broker_call
       (trace_of (script demo_runtime (world_of [0%nat] []) 5 g_start)) = [].
Proof.
  apply (startup_wifi_failure demo_runtime (world_of [0%nat] []) 5 g_start broken).
  reflexivity.
Defined.

(** X13.  No handler surrounds the [aio.connect()] of line 135: when it
    raises, the exception ends the script as it is, without the 60 s wait
    and the reload of the fatal handlers, before the subscription and
    before any turn of the loop. *)
Theorem startup_connect_failure_uncaught (rt : runtime) (w : world) (n : nat)
    (g : globals) (e : exn) :
  reply w (calls g) = None ->
  reply w (S (calls g)) = Some e ->
  let x := script rt w n g in
  result x = Raise e
  /\ reloads (trace_of x) = 0%nat
  /\ filter is_subscribe (trace_of x) = []
  /\ last (trace_of x) = Some EConnect.
Proof.
  intros H0 H1. cbv zeta.
  assert (exists t, startup rt w g = (Raise e, bump 2 g, t ++ [EConnect])
                    /\ reloads t = 0%nat /\ filter is_subscribe t = [])
    as (t & Hs & Hr & Hf).
  { eexists. split.
    - unfold startup, wifi_radio_connect, aio_connect. run_M.
      rewrite H0. cbn. rewrite H1. cbn.
      instantiate (1 := [ELed false; EPixel YELLOW;
        EPrint [Lit "Connecting to "; Val (getenv rt "CIRCUITPY_WIFI_SSID")];
        EWifiConnect (getenv rt "CIRCUITPY_WIFI_SSID")
                     (getenv rt "CIRCUITPY_WIFI_PASSWORD");
        EPixel GREEN;
        EPrint [Lit "  SUCCESS: connected to WiFi access point"];
        EPrint [Lit "  ... IO MQTT helper initialized"]]).
      reflexivity.
    - split; reflexivity. }
  unfold script. rewrite (bind_Raise _ _ _ _ _ _ Hs).
  unfold result, trace_of. cbn [fst snd].
  split_and!; [reflexivity | | | apply last_snoc].
  - rewrite reloads_app, Hr. reflexivity.
  - rewrite filter_app, Hf. reflexivity.
Qed.

Lemma startup_connect_failure_uncaught_witness :
  let x := script demo_runtime (world_of [1%nat] []) 5 g_start in
  result x = Raise broken
  /\ reloads (trace_of x) = 0%nat
  /\ filter is_subscribe (trace_of x) = []
  /\ last (trace_of x) = Some EConnect.
Proof.
  apply (startup_connect_failure_uncaught demo_runtime (world_of [1%nat] []) 5
           g_start broken); reflexivity.
Defined.

(** X14.  When start-up completes, [weather_data] and [weather_data_old]
    are both [None], whatever they held before and whatever the call-backs
    invoked during the subscription stored: an observation delivered while
    subscribing is dropped. *)
Theorem startup_resets_observation (rt : runtime) (w : world) (g : globals) :
  result (startup rt w g) = Ret tt ->
  weather_data (final (startup rt w g)) = VNone
  /\ weather_data_old (final (startup rt w g)) = VNone.
Proof.
  destruct (startup rt w g) as [[[[]|e|] g1] t1] eqn:Hs;
    unfold result, final; cbn [fst snd]; try discriminate.
  intros _. unfold startup in Hs.
  repeat match goal with
  | H : (_ ≫= _) _ = (Ret _, _, _) |- _ =>
      let E := fresh "E" in
      apply bind_Ret_inv in H as (? & ? & ? & ? & E & H & _)
  end.
  match goal with
  | E : set_weather_data VNone _ = _ |- _ => injection E as _ <- _
  end.
  injection Hs as <- _. split; reflexivity.
Qed.

Lemma startup_resets_observation_witness :
  weather_data (final (startup demo_runtime
                         (world_of [] [(3%nat, "clear")]) g_seen)) = VNone
  /\ weather_data_old (final (startup demo_runtime
                                (world_of [] [(3%nat, "clear")]) g_seen))
     = VNone.
Proof.
  apply (startup_resets_observation demo_runtime
           (world_of [] [(3%nat, "clear")]) g_seen).
  reflexivity.
Defined.

Example observation_during_subscription_is_dropped :
  let w := world_of [] [(3%nat, "clear")] in
  publishes (trace_of (script demo_runtime w 4 g_start)) = []
  /\ result (script demo_runtime w 4 g_start) = Ret tt.
Proof. split; reflexivity. Qed.

(** ** The change detection *)

(** X15.  An observation that tests false ([null], [false], [0], an empty
    str, list or dict) counts as no observation, also when it differs from
    the one committed: the turn prints the waiting line, runs [busy(10)],
    publishes nothing and commits nothing. *)
Theorem falsy_observation_is_ignored (rt : runtime) (w : world) (g : globals) :
  weather_data g ∈ [VNone; VBool false; VInt 0; VStr ""; VList []; VDict []] ->
  process rt w g
  = (Ret tt, g,
     EPrint [Lit "  ... waiting for weather observations from ";
             Val (VStr W_TOPIC_DESC)] :: busy_trace 10).
Proof.
  intros H. apply process_waiting.
  repeat (apply elem_of_cons in H as [-> | H]; [reflexivity |]).
  apply elem_of_nil in H. contradiction.
Qed.

Lemma falsy_observation_is_ignored_witness :
  process demo_runtime (world_of [] []) (mkGlobals (VDict []) obs_clear 9)
  = (Ret tt, mkGlobals (VDict []) obs_clear 9,
     EPrint [Lit "  ... waiting for weather observations from ";
             Val (VStr W_TOPIC_DESC)] :: busy_trace 10).
Proof.
  apply (falsy_observation_is_ignored demo_runtime (world_of [] [])
           (mkGlobals (VDict []) obs_clear 9)).
  set_solver.
Defined.

(** X16.  A turn that reaches its end ends with the heartbeat wait:
    [busy(120)] when [weather_data] tests true at that point and
    [busy(10)] when it does not; the pixel is left black. *)
Theorem completed_turn_ends_with_busy (rt : runtime) (w : world) (g : globals) :
  result (cycle rt w g) = Ret tt ->
  let x := cycle rt w g in
  (exists before,
     trace_of x
     = before
       ++ busy_trace (if py_truthy (weather_data (final x)) then 120 else 10))
  /\ last (pixels (trace_of x)) = Some BLACK.
Proof.
  intros Hr. cbv zeta.
  assert (exists before,
            trace_of (cycle rt w g)
            = before
              ++ busy_trace (if py_truthy (weather_data (final (cycle rt w g)))
                             then 120 else 10)) as (before & Hb).
  { rewrite cycle_run in *.
    destruct (fetch rt w g) as [[[[]|e|] g1] tf];
      unfold result, final, trace_of in *; cbn [fst snd] in *;
      try discriminate.
    destruct (py_truthy (weather_data g1)) eqn:Ht.
    - destruct (py_ne (weather_data g1) (weather_data_old g1)) eqn:Hne.
      + rewrite (process_changed rt w g1 Ht Hne) in *.
        destruct (derive rt g1) as [[[d|e|] g2] td] eqn:Hd.
        * pose proof (republish_summary rt w g1 d g2 td Hd) as (_ & _ & Hs).
          cbv zeta in Hs.
          destruct (republish rt w g1) as [[[[]|e|] g3] t3];
            unfold result, final, trace_of in *; cbn [fst snd] in *;
            try discriminate.
          destruct Hs as [(_ & _ & _ & Hw & _) | (Hx & _)]; [| discriminate].
          rewrite Hw, Ht. exists (tf ++ t3). rewrite app_assoc. reflexivity.
        * rewrite (republish_raise rt w g1 e g2 td Hd) in Hr. discriminate.
        * destruct (calm_derive rt) as [Hm _].
          specialize (Hm g1) as (_ & _ & _ & N & _). rewrite Hd in N.
          exfalso. apply N. reflexivity.
      + rewrite (process_unchanged rt w g1 Ht Hne). cbn [fst snd].
        rewrite Ht. exists tf. reflexivity.
    - rewrite (process_waiting rt w g1 Ht). cbn [fst snd]. rewrite Ht.
      exists (tf ++ [EPrint [Lit "  ... waiting for weather observations from ";
                             Val (VStr W_TOPIC_DESC)]]).
      rewrite <- app_assoc. reflexivity. }
  split; [exists before; exact Hb |].
  rewrite Hb. unfold pixels, busy_trace. rewrite omap_app. cbn.
  change (omap _ (blink_trace ?n)) with (pixels (blink_trace n)).
  rewrite pixels_blink. apply last_snoc.
Qed.

Lemma completed_turn_ends_with_busy_witness :
  let x := cycle demo_runtime (world_of [3%nat] [(0%nat, "clear")]) g_start in
  (exists before,
     trace_of x
     = before
       ++ busy_trace (if py_truthy (weather_data (final x)) then 120 else 10))
  /\ last (pixels (trace_of x)) = Some BLACK.
Proof.
  apply (completed_turn_ends_with_busy demo_runtime
           (world_of [3%nat] [(0%nat, "clear")]) g_start).
  reflexivity.
Defined.

(** X17.  After start-up and any number of completed turns,
    [weather_data_old] is [None] or a value that tests true: only
    observations that passed the test of line 171 are ever committed. *)
Theorem committed_value_is_truthy (rt : runtime) (w : world) (n : nat)
    (g : globals) :
  result (script rt w n g) = Ret tt ->
  weather_data_old (final (script rt w n g)) = VNone
  \/ py_truthy (weather_data_old (final (script rt w n g))) = true.
Proof. apply script_committed_ok. Qed.

Lemma committed_value_is_truthy_witness :
  weather_data_old
    (final (script demo_runtime (world_of [] [(4%nat, "clear")]) 2 g_start))
  = VNone
  \/ py_truthy
       (weather_data_old
          (final (script demo_runtime (world_of [] [(4%nat, "clear")]) 2
                    g_start)))
     = true.
Proof.
  apply (committed_value_is_truthy demo_runtime
           (world_of [] [(4%nat, "clear")]) 2 g_start).
  reflexivity.
Defined.

(** ** The scaled values *)

(** A str passes the scaling of line 175 as a repetition and fails that of
    lines 176 and 178.  The products of numbers are rounded: [5 * 0.6214]
    is the float Python writes [3.1069999999999998], [0.07 * 100] the
    float [7.000000000000001]; an int beyond the float range cannot be
    scaled by [0.6214], and a float product beyond it is an infinity. *)
Example scaling :
  py_mul (VStr "ab") Times100
  = inr (VStr (repeat_string 100 "ab"))
  /\ py_mul (VStr "5") Times06214
     = inl (TypeError "can't multiply sequence by non-int of type 'float'")
  /\ py_mul (VInt 5) Times06214
     = inr (VFloat (6996342021120065 # 2251799813685248))
  /\ py_mul (VFloat (round53 0.07)) Times100
     = inr (VFloat (7881299347898369 # 1125899906842624))
  /\ py_mul (VInt 7) Times100 = inr (VInt 700)
  /\ py_mul (VInt (10 ^ 400)) Times100 = inr (VInt (10 ^ 402))
  /\ py_mul (VInt (10 ^ 400)) Times06214
     = inl (OverflowError "int too large to convert to float")
  /\ py_mul (VFloat (inject_Z (10 ^ 307))) Times100 = inr (VInf false).
Proof. vm_compute. repeat split; reflexivity. Qed.
